(** * Black Diamond webcam monitor: the incremental merger of [update.py]

    A shallow embedding of [src/update.py] and the properties of its merge
    loop.  The script fetches the [numgrabbed] most recent images of a
    webcam, loads the persisted list of [out.json], walks the fetched
    batch from its last index down to 0, prepends every image whose
    timestamp is greater than the timestamp at the head of the list, and
    rewrites [out.json] at the end of every iteration.

    Layout:
    - [Json]: the values [json.load] builds (numbers with a fraction or an
      exponent are outside the model);
    - [Py]: the Python operations the scripts apply to them (subscripts,
      [list.insert], [range]) with the exceptions they raise;
    - [PyRuntime]: the library functions the scripts call ([json.load],
      [json.dumps], [int] on a [str]), taken as parameters;
    - [Update], [Get]: the two scripts as programs in a state-and-exception
      monad over the file [out.json] and the standard output;
    - [Reference]: an executable instance of [PyRuntime], used to run the
      scripts on the text of a response and of a file;
    - [Spec]: the specification's view (image records, persisted lists,
      the merge on them); [SingleWrite]: the script with one final write;
    - the lemmas on the loop, the theorems on whole runs, and the
      theorems applied to concrete runs. *)

From Stdlib Require Import ZArith List String Ascii Bool Lia.
From Stdlib Require Import DecimalString.
Import ListNotations.
Local Open Scope string_scope.
Local Open Scope Z_scope.
Set Warnings "-register-all".

(* ------------------------------------------------------------------ *)
(** ** JSON values as Python sees them *)

Module Json.

(** A [dict] keeps its insertion order, which [json.dumps] follows, so
    an object is an association list.  Strings are sequences of code
    points below 256. *)
Inductive json : Type :=
| JNull
| JBool (b : bool)
| JInt (z : Z)
| JStr (s : string)
| JList (l : list json)
| JObj (kvs : list (string * json)).

(** [d.get(k)] on the association list: the first binding of [k]. *)
Fixpoint dict_get (k : string) (kvs : list (string * json)) : option json :=
  match kvs with
  | [] => None
  | (k', v) :: rest => if String.eqb k k' then Some v else dict_get k rest
  end.

(** The binding of [k] replaced where it stands ([k] is bound in every
    use below: the value about to be replaced was read through it). *)
Fixpoint dict_set (k : string) (v : json) (kvs : list (string * json))
  : list (string * json) :=
  match kvs with
  | [] => [(k, v)]
  | (k', v') :: rest =>
      if String.eqb k k' then (k', v) :: rest else (k', v') :: dict_set k v rest
  end.

End Json.
Export Json.

(* ------------------------------------------------------------------ *)
(** ** Python operations and their exceptions *)

Module Py.

Inductive exn : Type :=
| URLError
| JSONDecodeError
| FileNotFoundError
| KeyError
| IndexError
| TypeError
| ValueError
| AttributeError.

(** The outcome of an expression: an exception or a value. *)
Definition res (A : Type) : Type := (exn + A)%type.

Definition ok {A} (a : A) : res A := inr a.
Definition raise {A} (e : exn) : res A := inl e.

Definition rbind {A B} (r : res A) (f : A -> res B) : res B :=
  match r with
  | inl e => inl e
  | inr a => f a
  end.

(** A sequence index as Python resolves it: a negative index counts
    from the end; [None] when it falls outside [0 .. len-1]. *)
Definition norm_index (len : nat) (i : Z) : option nat :=
  let n := Z.of_nat len in
  let j := if i <? 0 then i + n else i in
  if (0 <=? j) && (j <? n) then Some (Z.to_nat j) else None.

(** [v[k]] for a string key [k]. *)
Definition subscript_key (v : json) (k : string) : res json :=
  match v with
  | JObj kvs =>
      match dict_get k kvs with
      | Some x => ok x
      | None => raise KeyError
      end
  | _ => raise TypeError
  end.

(** [v[i]] for an integer [i]. *)
Definition subscript_index (v : json) (i : Z) : res json :=
  match v with
  | JList l =>
      match norm_index (List.length l) i with
      | Some n =>
          match nth_error l n with
          | Some x => ok x
          | None => raise IndexError
          end
      | None => raise IndexError
      end
  | JStr s =>
      match norm_index (String.length s) i with
      | Some n =>
          match String.get n s with
          | Some c => ok (JStr (String c EmptyString))
          | None => raise IndexError
          end
      | None => raise IndexError
      end
  | JObj _ => raise KeyError
  | _ => raise TypeError
  end.

(** [l.insert(i, x)] on a Python list: the index is clamped to
    [0 .. len(l)] after negative indices are counted from the end. *)
Definition insert_at (i : Z) (x : json) (l : list json) : list json :=
  let n := Z.of_nat (List.length l) in
  let j := if i <? 0 then Z.max 0 (i + n) else Z.min i n in
  firstn (Z.to_nat j) l ++ x :: skipn (Z.to_nat j) l.

(** The attribute [v.insert]: only a list has it; the bound method
    returns the list after the insertion. *)
Definition insert_method (v : json) : res (Z -> json -> json) :=
  match v with
  | JList l => ok (fun i x => JList (insert_at i x l))
  | _ => raise AttributeError
  end.

(** [range(start, stop, step)]; a zero step raises [ValueError]. *)
Definition py_range (start stop step : Z) : res (list Z) :=
  if step =? 0 then raise ValueError
  else
    let len :=
      if 0 <? step
      then (if start <? stop then (stop - start - 1) / step + 1 else 0)
      else (if stop <? start then (start - stop - 1) / (- step) + 1 else 0) in
    ok (map (fun k => start + Z.of_nat k * step) (seq 0 (Z.to_nat len))).

End Py.
Export Py.

(* ------------------------------------------------------------------ *)
(** ** The library functions the script calls *)

(** [json.load] and [json.dumps] (with their default arguments) and
    [int] applied to a [str] belong to the Python library; the script is
    verified for every behaviour of them.  [json_loads] returns [None]
    where the library raises [JSONDecodeError], [int_of_str] where it
    raises [ValueError]. *)
Class PyRuntime : Type := {
  json_loads : string -> option json;
  json_dumps : json -> string;
  int_of_str : string -> option Z
}.

(** [int(v)]. *)
Definition py_int `{PyRuntime} (v : json) : res Z :=
  match v with
  | JInt z => ok z
  | JBool b => ok (if b then 1 else 0)
  | JStr s =>
      match int_of_str s with
      | Some z => ok z
      | None => raise ValueError
      end
  | _ => raise TypeError
  end.

(* ------------------------------------------------------------------ *)
(** ** The script [update.py] *)

Module Update.

(** A line written by [print(f"...{v}")]: the literal part and the
    interpolated value, which the runtime renders with [str]. *)
Inductive line : Type :=
| FString (literal : string) (v : json).

(** What the script reads and changes outside itself: the content of
    [out.json], if the file exists, and the standard output. *)
Record world : Type := mkWorld {
  out_json : option string;
  stdout : list line
}.

(** A statement runs in a world and ends in a world, with an exception
    or a value: what was written before an exception stays written. *)
Definition M (A : Type) : Type := world -> world * res A.

Definition ret {A} (a : A) : M A := fun w => (w, ok a).

Definition bind {A B} (m : M A) (f : A -> M B) : M B :=
  fun w =>
    match m w with
    | (w', inl e) => (w', inl e)
    | (w', inr a) => f a w'
    end.

Definition lift {A} (r : res A) : M A := fun w => (w, r).

Notation "x <- m ;; k" := (bind m (fun x => k))
  (at level 61, m at next level, right associativity).
Notation "m ;;; k" := (bind m (fun _ => k))
  (at level 61, right associativity).

(** [for x in xs: body], threading the variables the body assigns. *)
Fixpoint for_each {A S} (xs : list A) (body : A -> S -> M S) (s : S) : M S :=
  match xs with
  | [] => ret s
  | x :: rest => s' <- body x s ;; for_each rest body s'
  end.

(** [with open("out.json") as o: ... o.read()]. *)
Definition read_out_json : M string :=
  fun w =>
    match out_json w with
    | Some text => (w, ok text)
    | None => (w, raise FileNotFoundError)
    end.

(** [with open("out.json", "w") as w: w.write(text)]. *)
Definition write_out_json (text : string) : M unit :=
  fun w => (mkWorld (Some text) (stdout w), ok tt).

Definition print (l : line) : M unit :=
  fun w => (mkWorld (out_json w) (stdout w ++ [l]), ok tt).

Definition numgrabbed : Z := 2.

Section Script.
Context `{PyRuntime}.

(** [json.load] of a text. *)
Definition json_load (text : string) : res json :=
  match json_loads text with
  | Some v => ok v
  | None => raise JSONDecodeError
  end.

(** [olddata["list"][0][0]]. *)
Definition head_timestamp (olddata : json) : res json :=
  rbind (subscript_key olddata "list") (fun lst =>
  rbind (subscript_index lst 0) (fun entry =>
  subscript_index entry 0)).

(** [olddata["list"].insert(0, [img["imageTimestamp"], img["imageUrl"]])]:
    the receiver and its method first, then the arguments, then the
    call, which changes the list [olddata] holds. *)
Definition insert_front (olddata img : json) : res json :=
  rbind (subscript_key olddata "list") (fun lst =>
  rbind (insert_method lst) (fun insert =>
  rbind (subscript_key img "imageTimestamp") (fun t =>
  rbind (subscript_key img "imageUrl") (fun u =>
  match olddata with
  | JObj kvs => ok (JObj (dict_set "list" (insert 0 (JList [t; u])) kvs))
  | _ => raise TypeError
  end)))).

(** One iteration of the loop, on index [i]. *)
Definition loop_body (newdata : json) (i : Z) (olddata : json) : M json :=
  img <- lift (rbind (subscript_key newdata "images")
                     (fun imgs => subscript_index imgs i)) ;;
  newtime <- lift (subscript_key img "imageTimestamp") ;;
  recent <- lift (head_timestamp olddata) ;;
  r <- lift (py_int recent) ;;
  n <- lift (py_int newtime) ;;
  olddata' <-
    (if r <? n then
       olddata' <- lift (insert_front olddata img) ;;
       print (FString "inserted new tiem " newtime) ;;;
       ret olddata'
     else ret olddata) ;;
  let json_string := json_dumps olddata' in
  write_out_json json_string ;;;
  ret olddata'.

(** The whole script for a batch size [grabbed]; [response] is what
    [urllib.request.urlopen] returned: the body, or the exception. *)
Definition update_script (grabbed : Z) (response : res string) : M unit :=
  p <- lift response ;;
  newdata <- lift (json_load p) ;;
  o <- read_out_json ;;
  olddata <- lift (json_load o) ;;
  indices <- lift (py_range (grabbed - 1) (-1) (-1)) ;;
  for_each indices (loop_body newdata) olddata ;;;
  ret tt.

(** [update.py] as it stands. *)
Definition update : res string -> M unit := update_script numgrabbed.

End Script.

End Update.
Export Update.

(* ------------------------------------------------------------------ *)
(** ** The script [get.py] *)

Module Get.

Section Script.
Context `{PyRuntime}.

(** The values [for i in v] meets: the elements of a list, the keys of
    a [dict], the characters of a [str]. *)
Definition py_iter (v : json) : res (list json) :=
  match v with
  | JList l => ok l
  | JObj kvs => ok (map (fun kv => JStr (fst kv)) kvs)
  | JStr s => ok (map (fun c => JStr (String c EmptyString)) (list_ascii_of_string s))
  | _ => raise TypeError
  end.

(** [bigarr.append([i["imageTimestamp"], i["imageUrl"]])]. *)
Definition append_image (i : json) (bigarr : list json) : M (list json) :=
  lift (rbind (subscript_key i "imageTimestamp") (fun t =>
        rbind (subscript_key i "imageUrl") (fun u =>
        ok (bigarr ++ [JList [t; u]])%list))).

(** The bulk importer: every image of the response, in the order
    received, written over [out.json]. *)
Definition get_script (response : res string) : M unit :=
  p <- lift response ;;
  data <- lift (json_load p) ;;
  first <- lift (rbind (subscript_key data "images")
                       (fun imgs => subscript_index imgs 0)) ;;
  print (FString "" first) ;;;
  images <- lift (rbind (subscript_key data "images") py_iter) ;;
  bigarr <- for_each images append_image [] ;;
  print (FString "" (JList bigarr)) ;;;
  let l := JObj [("list", JList bigarr)] in
  let json_string := json_dumps l in
  write_out_json json_string.

End Script.

End Get.
Export Get.

(* ------------------------------------------------------------------ *)
(** ** A reference runtime *)

(** An executable instance of [PyRuntime], so that the script can be run
    on the text of a response and of a file: a serializer in the format
    of [json.dumps] with its default arguments, a parser for the JSON
    texts that denote values of [json], and [int] on decimal literals.
    No theorem depends on how it works. *)
Module Reference.

Definition dquote : ascii := "034"%char.
Definition backslash : ascii := "092"%char.

Definition str1 (c : ascii) : string := String c EmptyString.

Definition hex_digit (n : N) : ascii :=
  ascii_of_N (if (n <? 10)%N then 48 + n else 87 + n)%N.

(** [json.dumps] escapes the quote, the backslash and every code point
    outside [' ' .. '~']. *)
Definition escape_char (c : ascii) : string :=
  let n := N_of_ascii c in
  if (n =? 34)%N then String backslash (str1 dquote)
  else if (n =? 92)%N then String backslash (str1 backslash)
  else if (n =? 10)%N then String backslash "n"
  else if (n =? 13)%N then String backslash "r"
  else if (n =? 9)%N then String backslash "t"
  else if (n =? 8)%N then String backslash "b"
  else if (n =? 12)%N then String backslash "f"
  else if ((n <? 32) || (126 <? n))%N
  then String backslash
         ("u00" ++ String (hex_digit (n / 16)) (str1 (hex_digit (n mod 16))))
  else str1 c.

Fixpoint escape (s : string) : string :=
  match s with
  | EmptyString => EmptyString
  | String c r => escape_char c ++ escape r
  end.

Definition quote (s : string) : string :=
  String dquote (escape s ++ str1 dquote).

Definition decimal (z : Z) : string := NilZero.string_of_int (Z.to_int z).

Fixpoint dumps (v : json) : string :=
  match v with
  | JNull => "null"
  | JBool true => "true"
  | JBool false => "false"
  | JInt z => decimal z
  | JStr s => quote s
  | JList l =>
      "[" ++
      (fix items (l : list json) : string :=
         match l with
         | [] => ""
         | x :: rest =>
             match rest with
             | [] => dumps x
             | _ => dumps x ++ ", " ++ items rest
             end
         end) l ++ "]"
  | JObj kvs =>
      "{" ++
      (fix members (kvs : list (string * json)) : string :=
         match kvs with
         | [] => ""
         | (k, x) :: rest =>
             match rest with
             | [] => quote k ++ ": " ++ dumps x
             | _ => quote k ++ ": " ++ dumps x ++ ", " ++ members rest
             end
         end) kvs ++ "}"
  end.

Definition is_ws (c : ascii) : bool :=
  let n := N_of_ascii c in
  ((n =? 32) || (n =? 9) || (n =? 10) || (n =? 13))%N.

Fixpoint skip_ws (s : string) : string :=
  match s with
  | String c r => if is_ws c then skip_ws r else s
  | EmptyString => s
  end.

Definition digit_value (c : ascii) : option Z :=
  let n := N_of_ascii c in
  if ((48 <=? n) && (n <=? 57))%N then Some (Z.of_N (n - 48)) else None.

Definition hex_value (c : ascii) : option N :=
  let n := N_of_ascii c in
  if ((48 <=? n) && (n <=? 57))%N then Some (n - 48)%N
  else if ((97 <=? n) && (n <=? 102))%N then Some (n - 87)%N
  else if ((65 <=? n) && (n <=? 70))%N then Some (n - 55)%N
  else None.

(** The digits at the front of [s], added to [acc]. *)
Fixpoint parse_digits (acc : Z) (s : string) : Z * string :=
  match s with
  | String c r =>
      match digit_value c with
      | Some d => parse_digits (10 * acc + d) r
      | None => (acc, s)
      end
  | EmptyString => (acc, s)
  end.

Definition starts_fraction (s : string) : bool :=
  match s with
  | String c _ =>
      let n := N_of_ascii c in ((n =? 46) || (n =? 69) || (n =? 101))%N
  | EmptyString => false
  end.

(** A JSON integer: [0] or a digit string without a leading zero; a
    fraction or an exponent denotes no value of [json]. *)
Definition parse_nat (s : string) : option (Z * string) :=
  match s with
  | String c r =>
      match digit_value c with
      | Some d =>
          let '(z, r') := if d =? 0 then (0, r) else parse_digits d r in
          if starts_fraction r' then None else Some (z, r')
      | None => None
      end
  | EmptyString => None
  end.

(** The characters of a string literal up to its closing quote. *)
Fixpoint parse_chars (s : string) : option (string * string) :=
  match s with
  | EmptyString => None
  | String c r =>
      let n := N_of_ascii c in
      if (n =? 34)%N then Some (EmptyString, r)
      else if (n <? 32)%N then None
      else if (n =? 92)%N then
        match r with
        | String e r1 =>
            let m := N_of_ascii e in
            let simple (x : N) :=
              match parse_chars r1 with
              | Some (t, r') => Some (String (ascii_of_N x) t, r')
              | None => None
              end in
            if (m =? 34)%N then simple 34%N
            else if (m =? 92)%N then simple 92%N
            else if (m =? 47)%N then simple 47%N
            else if (m =? 98)%N then simple 8%N
            else if (m =? 102)%N then simple 12%N
            else if (m =? 110)%N then simple 10%N
            else if (m =? 114)%N then simple 13%N
            else if (m =? 116)%N then simple 9%N
            else if (m =? 117)%N then
              match r1 with
              | String h1 (String h2 (String h3 (String h4 r2))) =>
                  match hex_value h1, hex_value h2, hex_value h3, hex_value h4 with
                  | Some 0%N, Some 0%N, Some a, Some b =>
                      match parse_chars r2 with
                      | Some (t, r') =>
                          Some (String (ascii_of_N (16 * a + b)) t, r')
                      | None => None
                      end
                  | _, _, _, _ => None
                  end
              | _ => None
              end
            else None
        | EmptyString => None
        end
      else
        match parse_chars r with
        | Some (t, r') => Some (String c t, r')
        | None => None
        end
  end.

(** [d[k] = v] while a [dict] is built: a key met again keeps its
    place and takes the new value. *)
Definition dict_add (kvs : list (string * json)) (kv : string * json)
  : list (string * json) :=
  match dict_get (fst kv) kvs with
  | Some _ => dict_set (fst kv) (snd kv) kvs
  | None => kvs ++ [kv]
  end.

Definition eat (c : ascii) (s : string) : option string :=
  match skip_ws s with
  | String c' r => if Ascii.eqb c c' then Some r else None
  | EmptyString => None
  end.

Fixpoint parse_value (fuel : nat) (s : string) : option (json * string) :=
  match fuel with
  | O => None
  | S f =>
      match skip_ws s with
      | EmptyString => None
      | String c r =>
          let n := N_of_ascii c in
          if (n =? 34)%N then
            match parse_chars r with
            | Some (t, r') => Some (JStr t, r')
            | None => None
            end
          else if (n =? 91)%N then
            match eat "]" r with
            | Some r' => Some (JList [], r')
            | None =>
                match parse_elements f r with
                | Some (l, r') => Some (JList l, r')
                | None => None
                end
            end
          else if (n =? 123)%N then
            match eat "}" r with
            | Some r' => Some (JObj [], r')
            | None =>
                match parse_members f r with
                | Some (kvs, r') => Some (JObj (fold_left dict_add kvs []), r')
                | None => None
                end
            end
          else if (n =? 45)%N then
            match parse_nat r with
            | Some (z, r') => Some (JInt (- z), r')
            | None => None
            end
          else if prefix "null" (String c r) then
            Some (JNull, substring 4 (String.length r - 3) (String c r))
          else if prefix "true" (String c r) then
            Some (JBool true, substring 4 (String.length r - 3) (String c r))
          else if prefix "false" (String c r) then
            Some (JBool false, substring 5 (String.length r - 4) (String c r))
          else
            match parse_nat (String c r) with
            | Some (z, r') => Some (JInt z, r')
            | None => None
            end
      end
  end
with parse_elements (fuel : nat) (s : string) : option (list json * string) :=
  match fuel with
  | O => None
  | S f =>
      match parse_value f s with
      | Some (v, r) =>
          match eat "]" r with
          | Some r' => Some ([v], r')
          | None =>
              match eat "," r with
              | Some r' =>
                  match parse_elements f r' with
                  | Some (vs, r'') => Some (v :: vs, r'')
                  | None => None
                  end
              | None => None
              end
          end
      | None => None
      end
  end
with parse_members (fuel : nat) (s : string)
  : option (list (string * json) * string) :=
  match fuel with
  | O => None
  | S f =>
      match eat dquote s with
      | Some r0 =>
          match parse_chars r0 with
          | Some (k, r1) =>
              match eat ":" r1 with
              | Some r2 =>
                  match parse_value f r2 with
                  | Some (v, r3) =>
                      match eat "}" r3 with
                      | Some r' => Some ([(k, v)], r')
                      | None =>
                          match eat "," r3 with
                          | Some r' =>
                              match parse_members f r' with
                              | Some (kvs, r'') => Some ((k, v) :: kvs, r'')
                              | None => None
                              end
                          | None => None
                          end
                      end
                  | None => None
                  end
              | None => None
              end
          | None => None
          end
      | None => None
      end
  end.

(** A whole text: one value, with nothing but white space after it. *)
Definition loads (s : string) : option json :=
  match parse_value (2 * String.length s + 2) s with
  | Some (v, r) =>
      match skip_ws r with
      | EmptyString => Some v
      | _ => None
      end
  | None => None
  end.

(** The white space [int] strips from a [str]. *)
Definition is_py_space (c : ascii) : bool :=
  let n := N_of_ascii c in
  (((9 <=? n) && (n <=? 13)) || (n =? 32) || (n =? 133) || (n =? 160))%N.

Fixpoint lstrip (s : string) : string :=
  match s with
  | String c r => if is_py_space c then lstrip r else s
  | EmptyString => s
  end.

(** Digits, with single underscores between them, up to the end of the
    text or to trailing white space only. *)
Fixpoint int_digits (acc : Z) (after_digit : bool) (s : string) : option Z :=
  match s with
  | EmptyString => if after_digit then Some acc else None
  | String c r =>
      match digit_value c with
      | Some d => int_digits (10 * acc + d) true r
      | None =>
          if (N_of_ascii c =? 95)%N then
            (if after_digit then int_digits acc false r else None)
          else if after_digit && is_py_space c then
            match lstrip r with
            | EmptyString => Some acc
            | _ => None
            end
          else None
      end
  end.

Definition int_str (s : string) : option Z :=
  match lstrip s with
  | String c r =>
      let n := N_of_ascii c in
      if (n =? 45)%N then option_map Z.opp (int_digits 0 false r)
      else if (n =? 43)%N then int_digits 0 false r
      else int_digits 0 false (String c r)
  | EmptyString => None
  end.

Definition runtime : PyRuntime := {|
  json_loads := loads;
  json_dumps := dumps;
  int_of_str := int_str
|}.

(** A text written with apostrophes in place of double quotes. *)
Fixpoint text (s : string) : string :=
  match s with
  | EmptyString => EmptyString
  | String c r => String (if Ascii.eqb c "'" then dquote else c) (text r)
  end.

End Reference.

(* ------------------------------------------------------------------ *)
(** ** The specification's view: image records and persisted lists *)

Module Spec.

(** An ImageRecord: a (timestamp, url) pair. *)
Definition ImageRecord : Type := (Z * string)%type.

Definition timestamp (r : ImageRecord) : Z := fst r.

(** An ImageList, newest first. *)
Definition ImageList : Type := list ImageRecord.

(** A record as [out.json] holds it: [[timestamp, url]]. *)
Definition entry (r : ImageRecord) : json := JList [JInt (fst r); JStr (snd r)].

(** The persisted state [{"list": [...]}]. *)
Definition state_doc (l : ImageList) : json :=
  JObj [("list", JList (map entry l))].

(** The record an image object of the API carries; the object may have
    other fields besides. *)
Definition image_record (img : json) : option ImageRecord :=
  match img with
  | JObj kvs =>
      match dict_get "imageTimestamp" kvs, dict_get "imageUrl" kvs with
      | Some (JInt t), Some (JStr u) => Some (t, u)
      | _, _ => None
      end
  | _ => None
  end.

Fixpoint image_records (imgs : list json) : option (list ImageRecord) :=
  match imgs with
  | [] => Some []
  | img :: rest =>
      match image_record img, image_records rest with
      | Some r, Some rs => Some (r :: rs)
      | _, _ => None
      end
  end.

(** The batch a response [{"images": [...]}] delivers, in the order
    received. *)
Definition fetched_batch (newdata : json) : option (list ImageRecord) :=
  match newdata with
  | JObj kvs =>
      match dict_get "images" kvs with
      | Some (JList imgs) => image_records imgs
      | _ => None
      end
  | _ => None
  end.

(** Strictly descending timestamps: every adjacent pair. *)
Definition descending (l : ImageList) : Prop :=
  forall (i : nat) (a b : ImageRecord),
    nth_error l i = Some a -> nth_error l (S i) = Some b ->
    timestamp b < timestamp a.

(** The same, decided. *)
Fixpoint descendingb (l : ImageList) : bool :=
  match l with
  | a :: (b :: _) as rest => (timestamp b <? timestamp a) && descendingb rest
  | _ => true
  end.

(** One fetched record against the list as it stands: prepended when
    newer than the current head. *)
Definition merge_step (l : ImageList) (r : ImageRecord) : ImageList :=
  match l with
  | [] => []
  | h :: _ => if timestamp h <? timestamp r then r :: l else l
  end.

(** The records of the batch in the order the loop meets them. *)
Definition visited (grabbed : Z) (batch : list ImageRecord) : list ImageRecord :=
  rev (firstn (Z.to_nat grabbed) batch).

Definition merge (grabbed : Z) (l : ImageList) (batch : list ImageRecord)
  : ImageList :=
  fold_left merge_step (visited grabbed batch) l.

(** The notifications printed while [rs] are met, starting from [l]. *)
Fixpoint notifications (l : ImageList) (rs : list ImageRecord) : list line :=
  match rs with
  | [] => []
  | r :: rest =>
      match l with
      | h :: _ =>
          if timestamp h <? timestamp r
          then FString "inserted new tiem " (JInt (timestamp r))
               :: notifications (merge_step l r) rest
          else notifications (merge_step l r) rest
      | [] => notifications (merge_step l r) rest
      end
  end.

(** The world a run leaves after it met the records [rs], starting
    from the list [l]: every iteration rewrote the file. *)
Definition world_after `{PyRuntime} (w : world) (l : ImageList)
    (rs : list ImageRecord) : world :=
  match rs with
  | [] => w
  | _ :: _ =>
      mkWorld (Some (json_dumps (state_doc (fold_left merge_step rs l))))
              (stdout w ++ notifications l rs)
  end.

End Spec.
Export Spec.

(* ------------------------------------------------------------------ *)
(** ** The single write of the design notes *)

(** The specification's variant of the script: "collapse to a single
    write after the full batch is processed".  The loop body is the one
    of [update.py] without its write; the file is written once, after
    the loop. *)
Module SingleWrite.

Section Script.
Context `{PyRuntime}.

Definition loop_body_no_write (newdata : json) (i : Z) (olddata : json)
  : M json :=
  img <- lift (rbind (subscript_key newdata "images")
                     (fun imgs => subscript_index imgs i)) ;;
  newtime <- lift (subscript_key img "imageTimestamp") ;;
  recent <- lift (head_timestamp olddata) ;;
  r <- lift (py_int recent) ;;
  n <- lift (py_int newtime) ;;
  if r <? n then
    olddata' <- lift (insert_front olddata img) ;;
    print (FString "inserted new tiem " newtime) ;;;
    ret olddata'
  else ret olddata.

Definition update_single_write (grabbed : Z) (response : res string) : M unit :=
  p <- lift response ;;
  newdata <- lift (json_load p) ;;
  o <- read_out_json ;;
  olddata <- lift (json_load o) ;;
  indices <- lift (py_range (grabbed - 1) (-1) (-1)) ;;
  olddata' <- for_each indices (loop_body_no_write newdata) olddata ;;
  let json_string := json_dumps olddata' in
  write_out_json json_string ;;;
  ret tt.

End Script.

End SingleWrite.
Export SingleWrite.

(* ------------------------------------------------------------------ *)
(** ** Responses and files to run the script on *)

Module Fixtures.

Import Reference.

(** A response of two images, as the API sends it: newest first, with
    fields the script does not read. *)
Definition response (t0 : string) (u0 : string) (t1 : string) (u1 : string)
  : string :=
  text ("{'images': [{'imageId': 7, 'imageTimestamp': " ++ t0
        ++ ", 'imageUrl': '" ++ u0
        ++ "'}, {'imageTimestamp': " ++ t1
        ++ ", 'imageUrl': '" ++ u1 ++ "', 'imageId': 6}]}").

Definition resp_102_101 : string := response "102" "url102" "101" "url101".
Definition resp_103_101 : string := response "103" "c" "101" "b".
Definition resp_150_100 : string := response "150" "x" "100" "y".
Definition resp_105_105 : string := response "105" "a" "105" "b".
Definition resp_100_99 : string := response "100" "a" "99" "b".

Definition file_100 : string := text "{'list': [[100, 'url100']]}".
Definition file_100_90 : string := text "{'list': [[100, 'u'], [90, 'v']]}".
Definition file_200 : string := text "{'list': [[200, 'z'], [120, 'q']]}".
Definition file_empty : string := text "{'list': []}".

(** The parsed response. *)
Definition parsed (s : string) : json :=
  match loads s with
  | Some v => v
  | None => JNull
  end.

(** A world whose [out.json] holds [file], with nothing printed yet. *)
Definition world_of (file : string) : world := mkWorld (Some file) [].

Definition no_file : world := mkWorld None [].

End Fixtures.

(** Further responses and files: short, malformed and untyped ones. *)
Module Cases.

Import Reference.

(** One image where two were asked for. *)
Definition resp_one_image : string :=
  text "{'images': [{'imageTimestamp': 102, 'imageUrl': 'url102'}]}".

Definition resp_no_images : string := text "{'images': []}".


(** Three images, the first two as in [resp_102_101]. *)
Definition resp_three : string :=
  text ("{'images': [{'imageTimestamp': 102, 'imageUrl': 'url102'}, " ++
        "{'imageTimestamp': 101, 'imageUrl': 'url101'}, " ++
        "{'imageTimestamp': 500, 'imageUrl': 'url500'}]}").

(** Timestamps sent as strings. *)
Definition resp_strings : string :=
  text ("{'images': [{'imageTimestamp': '102', 'imageUrl': 'url102'}, " ++
        "{'imageTimestamp': '99', 'imageUrl': 'url99'}]}").

Definition file_strings : string := text "{'list': [['100', 'url100']]}".

(** A state file with keys besides ["list"]. *)
Definition file_extra_keys : string :=
  text "{'camera': 'ys-bbsn', 'list': [[100, 'url100']], 'note': null}".

(** The list of [file_200] in other layouts: without the spaces
    [json.dumps] puts after separators, and with a final newline. *)
Definition file_200_compact : string :=
  text "{'list':[[200,'z'],[120,'q']]}".

Definition file_200_newline : string :=
  (Fixtures.file_200 ++ String "010"%char EmptyString)%string.

End Cases.

(* ------------------------------------------------------------------ *)
(** ** Python operations: basic facts *)

Local Open Scope list_scope.

Section PyFacts.

Lemma dict_get_set (k : string) (v : json) (kvs : list (string * json)) :
  dict_get k (dict_set k v kvs) = Some v.
Proof.
  induction kvs as [|[k' v'] rest IH]; simpl.
  - now rewrite String.eqb_refl.
  - destruct (String.eqb k k') eqn:E; simpl; rewrite E; auto.
Qed.

Lemma insert_at_front (x : json) (l : list json) : insert_at 0 x l = x :: l.
Proof.
  unfold insert_at. simpl (0 <? 0).
  cbv iota. rewrite Z.min_l by lia. reflexivity.
Qed.

Lemma norm_index_nat (len i : nat) :
  norm_index len (Z.of_nat i) = if (i <? len)%nat then Some i else None.
Proof.
  unfold norm_index.
  destruct (Z.of_nat i <? 0) eqn:E; [apply Z.ltb_lt in E; lia|].
  destruct (Nat.ltb_spec i len) as [Hlt|Hge].
  - replace (0 <=? Z.of_nat i) with true by (symmetry; apply Z.leb_le; lia).
    replace (Z.of_nat i <? Z.of_nat len) with true
      by (symmetry; apply Z.ltb_lt; lia).
    simpl. now rewrite Nat2Z.id.
  - replace (Z.of_nat i <? Z.of_nat len) with false
      by (symmetry; apply Z.ltb_ge; lia).
    now rewrite andb_false_r.
Qed.

Lemma subscript_index_list (l : list json) (i : nat) :
  subscript_index (JList l) (Z.of_nat i) =
  match nth_error l i with
  | Some x => ok x
  | None => raise IndexError
  end.
Proof.
  simpl. rewrite norm_index_nat.
  destruct (Nat.ltb_spec i (List.length l)) as [Hlt|Hge]; [reflexivity|].
  apply nth_error_None in Hge. now rewrite Hge.
Qed.

(** The indices [range(n - 1, -1, -1)] yields: [n-1], ..., [0]. *)
Lemma countdown_map (n : nat) :
  map (fun k => Z.of_nat n - 1 + Z.of_nat k * -1) (seq 0 n) =
  map Z.of_nat (rev (seq 0 n)).
Proof.
  induction n as [|n IH]; [reflexivity|].
  rewrite seq_S at 2. rewrite rev_app_distr. simpl rev. simpl app.
  cbn [seq map]. rewrite <- seq_shift, map_map. f_equal.
  - lia.
  - rewrite <- IH. apply map_ext. intros k. lia.
Qed.

Lemma py_range_countdown (n : nat) :
  py_range (Z.of_nat n - 1) (-1) (-1) = ok (map Z.of_nat (rev (seq 0 n))).
Proof.
  unfold py_range.
  change (-1 =? 0) with false. change (0 <? -1) with false. cbv iota.
  destruct n as [|n].
  - reflexivity.
  - replace (-1 <? Z.of_nat (S n) - 1) with true
      by (symmetry; apply Z.ltb_lt; lia).
    replace ((Z.of_nat (S n) - 1 - -1 - 1) / - -1 + 1) with (Z.of_nat (S n)).
    + rewrite Nat2Z.id. now rewrite countdown_map.
    + change (- -1) with 1. rewrite Z.div_1_r. lia.
Qed.

Lemma py_range_nonpositive (grabbed : Z) :
  grabbed <= 0 -> py_range (grabbed - 1) (-1) (-1) = ok [].
Proof.
  intros Hle. unfold py_range.
  change (-1 =? 0) with false. change (0 <? -1) with false. cbv iota.
  replace (-1 <? grabbed - 1) with false by (symmetry; apply Z.ltb_ge; lia).
  reflexivity.
Qed.

End PyFacts.

(* ------------------------------------------------------------------ *)
(** ** The merge loop on image records *)

Section MergeLoop.
Context `{PyRuntime}.

Lemma image_record_fields (img : json) (r : ImageRecord) :
  image_record img = Some r ->
  subscript_key img "imageTimestamp" = ok (JInt (timestamp r)) /\
  subscript_key img "imageUrl" = ok (JStr (snd r)).
Proof.
  unfold image_record, subscript_key. destruct img; try discriminate.
  destruct (dict_get "imageTimestamp" kvs) as [[| | t | | |]|]; try discriminate.
  destruct (dict_get "imageUrl" kvs) as [[| | | u | |]|]; try discriminate.
  intros [= <-]. split; reflexivity.
Qed.

Lemma image_records_nth (imgs : list json) (batch : list ImageRecord) :
  image_records imgs = Some batch ->
  forall i : nat,
    match nth_error batch i with
    | Some r => exists img, nth_error imgs i = Some img /\ image_record img = Some r
    | None => nth_error imgs i = None
    end.
Proof.
  revert batch. induction imgs as [|img rest IH]; simpl; intros batch Hb i.
  - injection Hb as <-. destruct i; reflexivity.
  - destruct (image_record img) as [r|] eqn:Er; [|discriminate].
    destruct (image_records rest) as [rs|] eqn:Ers; [|discriminate].
    injection Hb as <-. destruct i as [|i]; simpl.
    + exists img. split; [reflexivity|assumption].
    + apply (IH rs eq_refl i).
Qed.

Lemma fetch_image (newdata : json) (batch : list ImageRecord) (i : nat) :
  fetched_batch newdata = Some batch ->
  match nth_error batch i with
  | Some r =>
      exists img,
        rbind (subscript_key newdata "images")
              (fun imgs => subscript_index imgs (Z.of_nat i)) = ok img /\
        image_record img = Some r
  | None =>
      rbind (subscript_key newdata "images")
            (fun imgs => subscript_index imgs (Z.of_nat i)) = raise IndexError
  end.
Proof.
  unfold fetched_batch, subscript_key. destruct newdata; try discriminate.
  destruct (dict_get "images" kvs) as [[| | | | imgs |]|]; try discriminate.
  intros Hb. pose proof (image_records_nth imgs batch Hb i) as Hn.
  unfold rbind, ok. rewrite subscript_index_list.
  destruct (nth_error batch i) as [r|].
  - destruct Hn as (img & Hi & Hr). exists img. rewrite Hi. now split.
  - now rewrite Hn.
Qed.

Lemma head_timestamp_state (h : ImageRecord) (tl : ImageList) :
  head_timestamp (state_doc (h :: tl)) = ok (JInt (timestamp h)).
Proof. reflexivity. Qed.

Lemma head_timestamp_empty : head_timestamp (state_doc []) = raise IndexError.
Proof. reflexivity. Qed.

Lemma insert_front_state (l : ImageList) (img : json) (r : ImageRecord) :
  image_record img = Some r ->
  insert_front (state_doc l) img = ok (state_doc (r :: l)).
Proof.
  intros Hr. destruct (image_record_fields img r Hr) as [Ht Hu].
  unfold insert_front. simpl. rewrite Ht, Hu. simpl.
  rewrite insert_at_front. reflexivity.
Qed.

Lemma merge_step_nonempty (l : ImageList) (r : ImageRecord) :
  l <> [] -> merge_step l r <> [].
Proof.
  destruct l as [|h tl]; [congruence|]. intros _. simpl.
  destruct (timestamp h <? timestamp r); discriminate.
Qed.

(** One iteration on a non-empty persisted list and an index of the
    batch. *)
Lemma loop_body_typed (newdata : json) (batch : list ImageRecord)
    (i : nat) (r : ImageRecord) (l : ImageList) (w : world) :
  fetched_batch newdata = Some batch ->
  nth_error batch i = Some r ->
  l <> [] ->
  loop_body newdata (Z.of_nat i) (state_doc l) w =
  (world_after w l [r], ok (state_doc (merge_step l r))).
Proof.
  intros Hb Hi Hl. destruct l as [|h tl]; [congruence|].
  pose proof (fetch_image newdata batch i Hb) as Hf. rewrite Hi in Hf.
  destruct Hf as (img & Himg & Hr).
  destruct (image_record_fields img r Hr) as [Ht _].
  unfold loop_body, bind, lift. rewrite Himg. unfold ok at 1.
  rewrite Ht. unfold ok at 1. rewrite head_timestamp_state. unfold ok at 1.
  simpl py_int. unfold ok at 1 2.
  unfold world_after. simpl fold_left. simpl notifications.
  destruct (timestamp h <? timestamp r) eqn:E.
  - rewrite (insert_front_state _ _ _ Hr).
    unfold merge_step. rewrite E. reflexivity.
  - unfold merge_step. rewrite E. unfold ret, write_out_json. simpl.
    rewrite app_nil_r. reflexivity.
Qed.

(** An index past the end of the batch: [IndexError], nothing done. *)
Lemma loop_body_out_of_range (newdata : json) (batch : list ImageRecord)
    (i : nat) (olddata : json) (w : world) :
  fetched_batch newdata = Some batch ->
  nth_error batch i = None ->
  loop_body newdata (Z.of_nat i) olddata w = (w, raise IndexError).
Proof.
  intros Hb Hi. pose proof (fetch_image newdata batch i Hb) as Hf.
  rewrite Hi in Hf. unfold loop_body, bind, lift. now rewrite Hf.
Qed.

Lemma loop_body_typed_empty (newdata : json) (batch : list ImageRecord)
    (i : nat) (r : ImageRecord) (w : world) :
  fetched_batch newdata = Some batch ->
  nth_error batch i = Some r ->
  loop_body newdata (Z.of_nat i) (state_doc []) w = (w, raise IndexError).
Proof.
  intros Hb Hi.
  pose proof (fetch_image newdata batch i Hb) as Hf. rewrite Hi in Hf.
  destruct Hf as (img & Himg & Hr).
  destruct (image_record_fields img r Hr) as [Ht _].
  unfold loop_body, bind, lift. rewrite Himg. unfold ok at 1.
  rewrite Ht. unfold ok at 1. rewrite head_timestamp_empty. reflexivity.
Qed.

(** An empty persisted list: the iteration raises before it writes. *)
Lemma loop_body_empty_list (newdata : json) (i : Z) (olddata : json)
    (w : world) :
  subscript_key olddata "list" = ok (JList []) ->
  exists e : exn, loop_body newdata i olddata w = (w, raise e).
Proof.
  intros Hl. unfold loop_body, bind, lift.
  destruct (rbind (subscript_key newdata "images") _) as [e|img];
    [now exists e|].
  destruct (subscript_key img "imageTimestamp") as [e|newtime];
    [now exists e|].
  unfold head_timestamp. rewrite Hl. simpl. now exists IndexError.
Qed.

Lemma notifications_app (rs1 rs2 : list ImageRecord) (l : ImageList) :
  notifications l (rs1 ++ rs2) =
  (notifications l rs1 ++ notifications (fold_left merge_step rs1 l) rs2).
Proof.
  revert l. induction rs1 as [|r rs1 IH]; intros l; [reflexivity|].
  simpl. destruct l as [|h tl].
  - apply IH.
  - destruct (timestamp h <? timestamp r); simpl; now rewrite IH.
Qed.

Lemma world_after_cons (w : world) (l : ImageList) (r : ImageRecord)
    (rs : list ImageRecord) :
  world_after (world_after w l [r]) (merge_step l r) rs =
  world_after w l (r :: rs).
Proof.
  destruct rs as [|r' rs]; [reflexivity|].
  unfold world_after. cbn [stdout]. f_equal.
  rewrite <- app_assoc. f_equal.
  change (r :: r' :: rs) with ([r] ++ r' :: rs).
  now rewrite notifications_app.
Qed.

(** The loop over indices of the batch, on a non-empty list. *)
Lemma for_each_typed (newdata : json) (batch : list ImageRecord) :
  fetched_batch newdata = Some batch ->
  forall (indices : list nat) (rs : list ImageRecord),
    map (nth_error batch) indices = map Some rs ->
    forall (l : ImageList) (w : world),
      l <> [] ->
      for_each (map Z.of_nat indices) (loop_body newdata) (state_doc l) w =
      (world_after w l rs, ok (state_doc (fold_left merge_step rs l))).
Proof.
  intros Hb indices.
  induction indices as [|i indices IH]; intros rs Hrs l w Hl.
  - destruct rs; [reflexivity|discriminate].
  - destruct rs as [|r rs]; [discriminate|].
    injection Hrs as Hi Hrs.
    cbn [map for_each]. unfold bind.
    rewrite (loop_body_typed newdata batch i r l w Hb Hi Hl).
    unfold ok at 1.
    rewrite (IH rs Hrs (merge_step l r) _ (merge_step_nonempty l r Hl)).
    rewrite world_after_cons. reflexivity.
Qed.

Lemma nth_error_seq_firstn (k : nat) (batch : list ImageRecord) :
  (k <= List.length batch)%nat ->
  map (nth_error batch) (seq 0 k) = map Some (firstn k batch).
Proof.
  revert batch. induction k as [|k IH]; intros batch Hk; [reflexivity|].
  destruct batch as [|a batch]; simpl in Hk; [lia|].
  cbn [seq firstn map nth_error]. f_equal.
  rewrite <- seq_shift, map_map. cbn [nth_error].
  apply IH. lia.
Qed.

Lemma visited_indices (k : nat) (batch : list ImageRecord) :
  (k <= List.length batch)%nat ->
  map (nth_error batch) (rev (seq 0 k)) =
  map Some (visited (Z.of_nat k) batch).
Proof.
  intros Hk. unfold visited. rewrite Nat2Z.id.
  rewrite !map_rev. f_equal. now apply nth_error_seq_firstn.
Qed.

(** The statements before the loop, on a response and a file that
    parse. *)
Lemma update_script_prologue (grabbed : Z) (resp file : string)
    (newdata olddata : json) (w : world) :
  json_loads resp = Some newdata ->
  out_json w = Some file ->
  json_loads file = Some olddata ->
  0 < grabbed ->
  update_script grabbed (inr resp) w =
  (for_each (map Z.of_nat (rev (seq 0 (Z.to_nat grabbed))))
            (loop_body newdata) olddata ;;; ret tt) w.
Proof.
  intros Hn Hf Ho Hg.
  unfold update_script, bind at 1 2 3 4 5, lift, read_out_json, json_load.
  rewrite Hn, Hf. unfold ok at 1 2. rewrite Ho. unfold ok at 1.
  replace (grabbed - 1) with (Z.of_nat (Z.to_nat grabbed) - 1) by lia.
  rewrite py_range_countdown. reflexivity.
Qed.

(** What a run does on image records: with a non-empty list and at
    least [grabbed] fetched images it succeeds and leaves the merged
    list; otherwise its first iteration raises [IndexError]. *)
Lemma update_script_typed (grabbed : Z) (resp file : string)
    (newdata : json) (batch : list ImageRecord) (l : ImageList) (w : world) :
  json_loads resp = Some newdata ->
  fetched_batch newdata = Some batch ->
  out_json w = Some file ->
  json_loads file = Some (state_doc l) ->
  0 < grabbed ->
  update_script grabbed (inr resp) w =
  match l with
  | [] => (w, raise IndexError)
  | _ :: _ =>
      if grabbed <=? Z.of_nat (List.length batch)
      then (world_after w l (visited grabbed batch), ok tt)
      else (w, raise IndexError)
  end.
Proof.
  intros Hn Hb Hf Ho Hg.
  rewrite (update_script_prologue grabbed resp file newdata _ w Hn Hf Ho Hg).
  destruct (Z.to_nat grabbed) as [|k] eqn:Ek; [lia|].
  assert (Hgk : grabbed = Z.of_nat (S k)) by lia.
  destruct (Z.leb_spec grabbed (Z.of_nat (List.length batch))) as [Hle|Hgt].
  - destruct l as [|h tl].
    + rewrite seq_S, rev_app_distr. cbn [rev app map for_each Nat.add].
      unfold bind.
      destruct (nth_error batch k) as [r|] eqn:Ei;
        [|apply nth_error_None in Ei; lia].
      now rewrite (loop_body_typed_empty newdata batch k r w Hb Ei).
    + unfold bind.
      rewrite (for_each_typed newdata batch Hb _ (visited grabbed batch));
        [reflexivity| |discriminate].
      rewrite Hgk. apply visited_indices. lia.
  - assert (Hi : nth_error batch k = None) by (apply nth_error_None; lia).
    rewrite seq_S, rev_app_distr. cbn [rev app map for_each Nat.add].
      unfold bind.
    rewrite (loop_body_out_of_range newdata batch k _ w Hb Hi).
    now destruct l.
Qed.

End MergeLoop.

(* ------------------------------------------------------------------ *)
(** ** The bulk importer on image records *)

Section Importer.
Context `{PyRuntime}.

Lemma for_each_append_image (imgs : list json) (batch : list ImageRecord) :
  image_records imgs = Some batch ->
  forall (bigarr : list json) (w : world),
    for_each imgs append_image bigarr w =
    (w, ok (bigarr ++ map entry batch)).
Proof.
  revert batch. induction imgs as [|img imgs IH]; intros batch Hb bigarr w.
  - injection Hb as <-. cbn. now rewrite app_nil_r.
  - cbn [image_records] in Hb.
    destruct (image_record img) as [r|] eqn:Er; [|discriminate].
    destruct (image_records imgs) as [rs|] eqn:Ers; [|discriminate].
    injection Hb as <-.
    destruct (image_record_fields img r Er) as [Ht Hu].
    cbn [for_each]. unfold bind, append_image, lift.
    rewrite Ht, Hu. cbn [rbind ok].
    rewrite (IH rs eq_refl). cbn [map]. now rewrite <- app_assoc.
Qed.

(** [get.py] on a response that delivers at least one image record
    leaves [out.json] holding the serialized list of all of them, in the
    order received: the form of file the merger starts from. *)
Lemma get_script_typed (resp : string) (data : json) (r : ImageRecord)
    (batch : list ImageRecord) (w : world) :
  json_loads resp = Some data ->
  fetched_batch data = Some (r :: batch) ->
  exists first : json,
    get_script (inr resp) w =
    (mkWorld (Some (json_dumps (state_doc (r :: batch))))
             (stdout w ++ [FString "" first;
                           FString "" (JList (map entry (r :: batch)))]),
     ok tt).
Proof.
  intros Hd Hb. unfold get_script, bind, lift, json_load.
  rewrite Hd. unfold ok at 1 2.
  unfold fetched_batch in Hb. destruct data as [| | | | |kvs]; try discriminate.
  unfold subscript_key.
  destruct (dict_get "images" kvs) as [[| | | | imgs |]|]; try discriminate.
  destruct imgs as [|img imgs]; [discriminate|].
  exists img. unfold print. cbn [rbind ok py_iter].
  change 0 with (Z.of_nat 0). rewrite subscript_index_list.
  cbn [nth_error ok].
  rewrite (for_each_append_image (img :: imgs) (r :: batch) Hb).
  unfold write_out_json, ok. cbn [out_json stdout app].
  now rewrite <- app_assoc.
Qed.

End Importer.

(* ------------------------------------------------------------------ *)
(** ** The merge on lists of records *)

Section MergeFacts.

Lemma descending_cons (a : ImageRecord) (l : ImageList) :
  descending (a :: l) <->
  (match l with [] => True | b :: _ => timestamp b < timestamp a end) /\
  descending l.
Proof.
  unfold descending. split.
  - intros Hd. split.
    + destruct l as [|b l]; [exact I|]. now apply (Hd 0%nat a b).
    + intros i x y Hx Hy. now apply (Hd (S i) x y).
  - intros [Hh Hd] i x y Hx Hy. destruct i as [|i].
    + simpl in Hx. injection Hx as <-.
      destruct l as [|b l]; [discriminate|].
      simpl in Hy. now injection Hy as <-.
    + now apply (Hd i x y).
Qed.

Lemma descendingb_spec (l : ImageList) : descendingb l = true <-> descending l.
Proof.
  induction l as [|a l IH].
  - split; [|reflexivity]. intros _ i x y Hx. now destruct i.
  - rewrite descending_cons, <- IH. destruct l as [|b l].
    + simpl. tauto.
    + cbn [descendingb]. rewrite andb_true_iff, Z.ltb_lt. tauto.
Qed.

Lemma merge_step_descending (l : ImageList) (r : ImageRecord) :
  descending l -> descending (merge_step l r).
Proof.
  intros Hd. destruct l as [|h tl]; [exact Hd|]. simpl.
  destruct (timestamp h <? timestamp r) eqn:E; [|exact Hd].
  apply descending_cons. split; [now apply Z.ltb_lt|exact Hd].
Qed.

Lemma fold_merge_descending (rs : list ImageRecord) (l : ImageList) :
  descending l -> descending (fold_left merge_step rs l).
Proof.
  revert l. induction rs as [|r rs IH]; intros l Hd; [exact Hd|].
  simpl. apply IH. now apply merge_step_descending.
Qed.

Lemma fold_merge_nonempty (rs : list ImageRecord) (l : ImageList) :
  l <> [] -> fold_left merge_step rs l <> [].
Proof.
  revert l. induction rs as [|r rs IH]; intros l Hl; [exact Hl|].
  simpl. apply IH. now apply merge_step_nonempty.
Qed.

(** The merge only prepends, and only records it met. *)
Lemma fold_merge_prepends (rs : list ImageRecord) (l : ImageList) :
  exists new : list ImageRecord,
    fold_left merge_step rs l = (new ++ l) /\ incl new rs.
Proof.
  revert l. induction rs as [|r rs IH]; intros l.
  - exists []. split; [reflexivity|apply incl_refl].
  - simpl. destruct (IH (merge_step l r)) as (new & Hn & Hi).
    destruct l as [|h tl].
    + exists new. split; [exact Hn|now apply incl_tl].
    + cbn [merge_step] in *. destruct (timestamp h <? timestamp r).
      * exists (new ++ [r]). split.
        -- rewrite <- app_assoc. exact Hn.
        -- apply incl_app; [now apply incl_tl|].
           intros x [<-|[]]. now left.
      * exists new. split; [exact Hn|now apply incl_tl].
Qed.

(** After the merge the head is at least as new as the old head and as
    every record met. *)
Lemma fold_merge_head (rs : list ImageRecord) (h : ImageRecord)
    (tl : ImageList) :
  exists (h' : ImageRecord) (tl' : ImageList),
    fold_left merge_step rs (h :: tl) = h' :: tl' /\
    timestamp h <= timestamp h' /\
    Forall (fun r => timestamp r <= timestamp h') rs.
Proof.
  revert h tl. induction rs as [|r rs IH]; intros h tl.
  - exists h, tl. repeat split; [lia|constructor].
  - simpl. destruct (Z.ltb_spec (timestamp h) (timestamp r)) as [Hlt|Hge].
    + destruct (IH r (h :: tl)) as (h' & tl' & Hf & Hh & Hall).
      exists h', tl'. repeat split; [exact Hf|lia|].
      constructor; assumption.
    + destruct (IH h tl) as (h' & tl' & Hf & Hh & Hall).
      exists h', tl'. repeat split; [exact Hf|exact Hh|].
      constructor; [lia|assumption].
Qed.

(** Records none of which is newer than the head change nothing. *)
Lemma fold_merge_stale (rs : list ImageRecord) (h : ImageRecord)
    (tl : ImageList) :
  Forall (fun r => timestamp r <= timestamp h) rs ->
  fold_left merge_step rs (h :: tl) = h :: tl /\
  notifications (h :: tl) rs = [].
Proof.
  induction 1 as [|r rs Hr _ IH]; [split; reflexivity|].
  simpl. replace (timestamp h <? timestamp r) with false
    by (symmetry; apply Z.ltb_ge; exact Hr).
  exact IH.
Qed.

Lemma merge_idempotent (rs : list ImageRecord) (l : ImageList) :
  fold_left merge_step rs (fold_left merge_step rs l) =
  fold_left merge_step rs l /\
  notifications (fold_left merge_step rs l) rs = [].
Proof.
  destruct l as [|h tl].
  - assert (He : fold_left merge_step rs [] = []).
    { clear. induction rs as [|r rs IH]; [reflexivity|exact IH]. }
    rewrite He, He. split; [reflexivity|].
    clear. induction rs as [|r rs IH]; [reflexivity|exact IH].
  - destruct (fold_merge_head rs h tl) as (h' & tl' & Hf & _ & Hall).
    rewrite Hf. now apply fold_merge_stale.
Qed.

Lemma descending_snoc (l1 : ImageList) (a b : ImageRecord) :
  descending (l1 ++ [a; b]) ->
  timestamp b < timestamp a /\ descending (l1 ++ [a]).
Proof.
  induction l1 as [|x l1 IH]; cbn [app]; intros Hd.
  - apply descending_cons in Hd. split; [tauto|].
    now apply descendingb_spec.
  - apply descending_cons in Hd. destruct Hd as [Hh Hd].
    destruct (IH Hd) as [Hab Hd']. split; [exact Hab|].
    apply descending_cons. split; [|exact Hd'].
    destruct l1; exact Hh.
Qed.

(** Records each newer than the one before, the first newer than the
    head, are all inserted. *)
Lemma fold_merge_all_new (rs : list ImageRecord) (h : ImageRecord)
    (tl : ImageList) :
  descending (rev rs ++ [h]) ->
  fold_left merge_step rs (h :: tl) = (rev rs ++ h :: tl) /\
  notifications (h :: tl) rs =
  map (fun r => FString "inserted new tiem " (JInt (timestamp r))) rs.
Proof.
  revert h tl. induction rs as [|r rs IH]; intros h tl Hd.
  - split; reflexivity.
  - cbn [rev] in Hd. rewrite <- app_assoc in Hd. cbn [app] in Hd.
    apply descending_snoc in Hd. destruct Hd as [Hlt Hd].
    cbn [fold_left notifications merge_step map].
    replace (timestamp h <? timestamp r) with true
      by (symmetry; now apply Z.ltb_lt).
    destruct (IH r (h :: tl) Hd) as [Hf Hn]. split.
    + rewrite Hf. cbn [rev]. now rewrite <- app_assoc.
    + now rewrite Hn.
Qed.

End MergeFacts.

(* ------------------------------------------------------------------ *)
(** ** Properties of the incremental merger *)

Section Merger.
Context `{PyRuntime}.

(** A successful run on image records wrote the merged list. *)
Lemma successful_run (grabbed : Z) (resp file : string) (newdata : json)
    (batch : list ImageRecord) (l : ImageList) (w w' : world) :
  json_loads resp = Some newdata ->
  fetched_batch newdata = Some batch ->
  out_json w = Some file ->
  json_loads file = Some (state_doc l) ->
  0 < grabbed ->
  update_script grabbed (inr resp) w = (w', ok tt) ->
  l <> [] /\ grabbed <= Z.of_nat (List.length batch) /\
  w' = world_after w l (visited grabbed batch) /\
  out_json w' = Some (json_dumps (state_doc (merge grabbed l batch))).
Proof.
  intros Hn Hb Hf Ho Hg Hrun.
  rewrite (update_script_typed grabbed resp file newdata batch l w
             Hn Hb Hf Ho Hg) in Hrun.
  destruct l as [|h tl]; [discriminate|].
  destruct (Z.leb_spec grabbed (Z.of_nat (List.length batch))) as [Hle|Hgt];
    [|discriminate].
  injection Hrun as <-. repeat split; [discriminate|exact Hle|].
  unfold merge, visited.
  destruct (Z.to_nat grabbed) as [|k] eqn:Ek; [lia|].
  destruct batch as [|b batch]; [simpl in Hle; lia|].
  cbn [firstn rev]. unfold world_after.
  destruct (rev (firstn k batch) ++ [b]) eqn:E; [|reflexivity].
  now destruct (rev (firstn k batch)).
Qed.

(** C1. With stored state [{"list": [[100, "url100"]]}] and fetched batch
    [[102,"url102"], [101,"url101"]] (newest first), the run of
    [update.py] leaves the file holding
    [{"list": [[102,"url102"], [101,"url101"], [100,"url100"]]}]; and with
    any stored list whose head has timestamp 100 and the batch
    [(103, "c"), (101, "b")], both records are inserted: the list reads
    103, 101, 100 and then its former tail. *)
Theorem end_to_end_scenario (resp file : string) (newdata : json) (w : world) :
  json_loads resp = Some newdata ->
  out_json w = Some file ->
  (fetched_batch newdata = Some [(102, "url102"); (101, "url101")] ->
   json_loads file = Some (state_doc [(100, "url100")]) ->
   update (inr resp) w =
   (mkWorld
      (Some (json_dumps
               (state_doc [(102, "url102"); (101, "url101"); (100, "url100")])))
      (stdout w ++ [FString "inserted new tiem " (JInt 101);
                    FString "inserted new tiem " (JInt 102)]),
    ok tt)) /\
  (forall (u : string) (tl : ImageList),
     fetched_batch newdata = Some [(103, "c"); (101, "b")] ->
     json_loads file = Some (state_doc ((100, u) :: tl)) ->
     update (inr resp) w =
     (mkWorld
        (Some (json_dumps
                 (state_doc ((103, "c") :: (101, "b") :: (100, u) :: tl))))
        (stdout w ++ [FString "inserted new tiem " (JInt 101);
                      FString "inserted new tiem " (JInt 103)]),
      ok tt)).
Proof.
  intros Hn Hf. split.
  - intros Hb Ho. unfold update.
    now rewrite (update_script_typed numgrabbed resp file newdata _ _ w
                   Hn Hb Hf Ho).
  - intros u tl Hb Ho. unfold update.
    now rewrite (update_script_typed numgrabbed resp file newdata _ _ w
                   Hn Hb Hf Ho).
Qed.

(** C2. Ordering invariant: when the timestamps of the persisted list are
    strictly descending, they are strictly descending in the list a
    successful run leaves, for every fetched batch: every adjacent pair
    decreases, so no timestamp appears twice. *)
Theorem merge_keeps_descending (grabbed : Z) (resp file : string)
    (newdata : json) (batch : list ImageRecord) (l : ImageList)
    (w w' : world) :
  json_loads resp = Some newdata ->
  fetched_batch newdata = Some batch ->
  out_json w = Some file ->
  json_loads file = Some (state_doc l) ->
  0 < grabbed ->
  descending l ->
  update_script grabbed (inr resp) w = (w', ok tt) ->
  out_json w' = Some (json_dumps (state_doc (merge grabbed l batch))) /\
  descending (merge grabbed l batch).
Proof.
  intros Hn Hb Hf Ho Hg Hd Hrun.
  destruct (successful_run grabbed resp file newdata batch l w w'
              Hn Hb Hf Ho Hg Hrun) as (_ & _ & _ & Hout).
  split; [exact Hout|]. now apply fold_merge_descending.
Qed.

(** C10. Frame: the list stored before a run is a suffix of the list
    stored after it; the run only prepends records, each taken from the
    fetched batch, and removes, changes or reorders none. *)
Theorem merge_only_prepends (grabbed : Z) (resp file : string)
    (newdata : json) (batch : list ImageRecord) (l : ImageList)
    (w w' : world) :
  json_loads resp = Some newdata ->
  fetched_batch newdata = Some batch ->
  out_json w = Some file ->
  json_loads file = Some (state_doc l) ->
  0 < grabbed ->
  update_script grabbed (inr resp) w = (w', ok tt) ->
  exists new : list ImageRecord,
    out_json w' = Some (json_dumps (state_doc (new ++ l))) /\
    incl new batch.
Proof.
  intros Hn Hb Hf Ho Hg Hrun.
  destruct (successful_run grabbed resp file newdata batch l w w'
              Hn Hb Hf Ho Hg Hrun) as (_ & _ & _ & Hout).
  destruct (fold_merge_prepends (visited grabbed batch) l) as (new & Hm & Hi).
  exists new. split.
  - rewrite Hout. unfold merge. now rewrite Hm.
  - intros x Hx. apply Hi in Hx. unfold visited in Hx.
    apply in_rev in Hx.
    rewrite <- (firstn_skipn (Z.to_nat grabbed) batch).
    apply in_or_app. now left.
Qed.

(** C5, as amended. Stale data: when no fetched timestamp exceeds the
    head timestamp of the persisted list (stored head 200, batch
    [(150, "x"), (100, "y")], say), the run succeeds, prints no insertion
    and leaves the list unchanged: what it writes to [out.json] is the
    serialization of that same list.  The file is therefore byte for
    byte what it was exactly when it already held the text the
    serializer gives for the list, as [get.py] and [update.py] write
    it; a file in any other layout is rewritten. *)
Theorem stale_batch_keeps_list (grabbed : Z) (resp file : string)
    (newdata : json) (batch : list ImageRecord) (h : ImageRecord)
    (tl : ImageList) (w : world) :
  json_loads resp = Some newdata ->
  fetched_batch newdata = Some batch ->
  out_json w = Some file ->
  json_loads file = Some (state_doc (h :: tl)) ->
  0 < grabbed <= Z.of_nat (List.length batch) ->
  Forall (fun r => timestamp r <= timestamp h) batch ->
  update_script grabbed (inr resp) w =
    (mkWorld (Some (json_dumps (state_doc (h :: tl)))) (stdout w), ok tt) /\
  (update_script grabbed (inr resp) w = (w, ok tt) <->
   json_dumps (state_doc (h :: tl)) = file).
Proof.
  intros Hn Hb Hf Ho [Hg Hle] Hstale.
  assert (Hrun : update_script grabbed (inr resp) w =
                 (mkWorld (Some (json_dumps (state_doc (h :: tl)))) (stdout w),
                  ok tt)).
  { rewrite (update_script_typed grabbed resp file newdata batch _ w
               Hn Hb Hf Ho Hg).
    replace (grabbed <=? Z.of_nat (List.length batch)) with true
      by (symmetry; now apply Z.leb_le).
    assert (Hv : Forall (fun r => timestamp r <= timestamp h)
                   (visited grabbed batch)).
    { apply Forall_rev.
      rewrite <- (firstn_skipn (Z.to_nat grabbed) batch) in Hstale.
      now apply Forall_app in Hstale. }
    destruct (fold_merge_stale _ h tl Hv) as [Hm Hp].
    unfold world_after. rewrite Hm, Hp, app_nil_r.
    destruct (visited grabbed batch) eqn:Ev; [|reflexivity].
    exfalso. unfold visited in Ev.
    destruct (Z.to_nat grabbed) as [|k] eqn:Ek; [lia|].
    destruct batch as [|b batch]; [simpl in Hle; lia|].
    cbn [firstn rev] in Ev. now destruct (rev (firstn k batch)). }
  split; [exact Hrun|]. rewrite Hrun. destruct w as [f o]. cbn in *.
  subst f. split.
  - now intros [= ->].
  - now intros ->.
Qed.

(** C3. Idempotence: a second run on the same remote data inserts
    nothing and leaves the list of the first run.  The first run wrote
    the merged list; once the library reads that text back as the
    document written, the second run ends in the very world the first
    one left: same file, no further notification. *)
Theorem second_run_changes_nothing (grabbed : Z) (resp file : string)
    (newdata : json) (batch : list ImageRecord) (l : ImageList)
    (w w1 : world) :
  json_loads resp = Some newdata ->
  fetched_batch newdata = Some batch ->
  out_json w = Some file ->
  json_loads file = Some (state_doc l) ->
  0 < grabbed ->
  update_script grabbed (inr resp) w = (w1, ok tt) ->
  out_json w1 = Some (json_dumps (state_doc (merge grabbed l batch))) /\
  (json_loads (json_dumps (state_doc (merge grabbed l batch))) =
     Some (state_doc (merge grabbed l batch)) ->
   update_script grabbed (inr resp) w1 = (w1, ok tt)).
Proof.
  intros Hn Hb Hf Ho Hg Hrun.
  destruct (successful_run grabbed resp file newdata batch l w w1
              Hn Hb Hf Ho Hg Hrun) as (Hl & Hle & _ & Hout).
  split; [exact Hout|]. intros Hback.
  rewrite (update_script_typed grabbed resp _ newdata batch _ w1
             Hn Hb Hout Hback Hg).
  replace (grabbed <=? Z.of_nat (List.length batch)) with true
    by (symmetry; now apply Z.leb_le).
  destruct (merge_idempotent (visited grabbed batch) l) as [Hm Hp].
  unfold world_after, merge in *. rewrite Hm, Hp, app_nil_r.
  destruct (fold_left merge_step (visited grabbed batch) l) as [|h' tl'] eqn:E.
  - now apply fold_merge_nonempty in E.
  - destruct (visited grabbed batch); destruct w1; simpl in *; congruence.
Qed.

Lemma descending_snoc_head (front : ImageList) (oldest h : ImageRecord) :
  descending (front ++ [oldest]) ->
  timestamp h < timestamp oldest ->
  descending (front ++ [oldest; h]).
Proof.
  induction front as [|x front IH]; cbn [app]; intros Hd Hlt.
  - apply descending_cons. split; [exact Hlt|].
    now apply descendingb_spec.
  - apply descending_cons in Hd. destruct Hd as [Hh Hd].
    apply descending_cons. split; [|now apply IH].
    destruct front; exact Hh.
Qed.

(** C7, as amended. When the [grabbed] fetched timestamps decrease
    strictly in the order received and the last one, the oldest, is
    greater than the head timestamp of the persisted list, all the
    fetched images are inserted: the list becomes the batch followed by
    the former list, with one notification for each image. *)
Theorem newer_batch_all_inserted (grabbed : Z) (resp file : string)
    (newdata : json) (batch front : list ImageRecord)
    (oldest h : ImageRecord) (tl : ImageList) (w : world) :
  json_loads resp = Some newdata ->
  fetched_batch newdata = Some batch ->
  out_json w = Some file ->
  json_loads file = Some (state_doc (h :: tl)) ->
  grabbed = Z.of_nat (List.length batch) ->
  batch = front ++ [oldest] ->
  descending batch ->
  timestamp h < timestamp oldest ->
  update_script grabbed (inr resp) w =
  (mkWorld
     (Some (json_dumps (state_doc (batch ++ h :: tl))))
     (stdout w ++
      map (fun r => FString "inserted new tiem " (JInt (timestamp r)))
          (rev batch)),
   ok tt).
Proof.
  intros Hn Hb Hf Ho Hg Hbatch Hd Hlt.
  assert (Hpos : 0 < grabbed).
  { rewrite Hg, Hbatch, last_length. lia. }
  rewrite (update_script_typed grabbed resp file newdata batch _ w
             Hn Hb Hf Ho Hpos).
  replace (grabbed <=? Z.of_nat (List.length batch)) with true
    by (symmetry; apply Z.leb_le; lia).
  assert (Hv : visited grabbed batch = rev batch).
  { unfold visited. now rewrite Hg, Nat2Z.id, firstn_all. }
  rewrite Hv.
  destruct (fold_merge_all_new (rev batch) h tl) as [Hm Hp].
  { rewrite rev_involutive, Hbatch, <- app_assoc. cbn [app].
    apply descending_snoc_head; [now rewrite <- Hbatch|exact Hlt]. }
  unfold world_after. rewrite Hm, Hp, rev_involutive.
  destruct (rev batch) eqn:E; [|reflexivity].
  apply (f_equal (@List.length _)) in E.
  rewrite length_rev, Hbatch, last_length in E. discriminate.
Qed.

(** C4. The comparison is strict: an iteration whose fetched image has
    a timestamp equal to the timestamp at the head of the stored list
    inserts nothing and prints nothing; it rewrites the file with the
    list as it was, so no duplicate entry appears. *)
Theorem equal_timestamp_not_inserted (newdata : json) (i : Z)
    (olddata img newtime recent : json) (t : Z) (w : world) :
  rbind (subscript_key newdata "images")
        (fun imgs => subscript_index imgs i) = ok img ->
  subscript_key img "imageTimestamp" = ok newtime ->
  head_timestamp olddata = ok recent ->
  py_int recent = ok t ->
  py_int newtime = ok t ->
  loop_body newdata i olddata w =
  (mkWorld (Some (json_dumps olddata)) (stdout w), ok olddata).
Proof.
  intros Himg Hnew Hrec Hr Hn.
  unfold loop_body, bind, lift.
  rewrite Himg. unfold ok at 1. rewrite Hnew. unfold ok at 1.
  rewrite Hrec. unfold ok at 1. rewrite Hr. unfold ok at 1.
  rewrite Hn. unfold ok at 1. rewrite Z.ltb_irrefl. reflexivity.
Qed.

(** An inserting iteration leaves the inserted timestamp at the head:
    the value the next iteration reads as [recent]. *)
Lemma loop_body_inserts (newdata : json) (i : Z)
    (olddata olddata' img newtime recent : json) (r n : Z) (w w' : world) :
  rbind (subscript_key newdata "images")
        (fun imgs => subscript_index imgs i) = ok img ->
  subscript_key img "imageTimestamp" = ok newtime ->
  head_timestamp olddata = ok recent ->
  py_int recent = ok r ->
  py_int newtime = ok n ->
  r < n ->
  loop_body newdata i olddata w = (w', ok olddata') ->
  head_timestamp olddata' = ok newtime.
Proof.
  intros Himg Hnew Hrec Hr Hn Hlt.
  unfold loop_body, bind, lift.
  rewrite Himg. unfold ok at 1. rewrite Hnew. unfold ok at 1.
  rewrite Hrec. unfold ok at 1. rewrite Hr. unfold ok at 1.
  rewrite Hn. unfold ok at 1.
  replace (r <? n) with true by (symmetry; now apply Z.ltb_lt).
  unfold insert_front. unfold head_timestamp in Hrec.
  destruct olddata as [| | | | |kvs]; try discriminate.
  destruct (subscript_key (JObj kvs) "list") as [e|lst]; [discriminate|].
  cbn [rbind].
  destruct lst as [| | | | l0 |]; try discriminate.
  cbn [insert_method rbind ok]. rewrite Hnew. cbn [rbind ok].
  destruct (subscript_key img "imageUrl") as [e|u]; [discriminate|].
  cbn [rbind ok]. unfold print, write_out_json, ret. cbn.
  intros [= _ <-].
  unfold head_timestamp, subscript_key. rewrite dict_get_set.
  cbn [rbind ok]. rewrite insert_at_front. reflexivity.
Qed.

(** C6. The loop visits the indices of the batch from the last one down
    to 0, the reverse of the order received; after an insertion the
    timestamp read as [recent] is the one just inserted; so the run
    folds the fetched records, oldest first, each compared with the
    head of the list as it then stands and not with the head the file
    first held. *)
Theorem merge_walks_backwards (grabbed : Z) (resp file : string)
    (newdata : json) (batch : list ImageRecord) (l : ImageList)
    (w w' : world) :
  json_loads resp = Some newdata ->
  fetched_batch newdata = Some batch ->
  out_json w = Some file ->
  json_loads file = Some (state_doc l) ->
  0 < grabbed ->
  update_script grabbed (inr resp) w = (w', ok tt) ->
  py_range (grabbed - 1) (-1) (-1) =
    ok (map Z.of_nat (rev (seq 0 (Z.to_nat grabbed)))) /\
  (forall (i : Z) (olddata olddata' img newtime recent : json) (r n : Z)
          (v v' : world),
     rbind (subscript_key newdata "images")
           (fun imgs => subscript_index imgs i) = ok img ->
     subscript_key img "imageTimestamp" = ok newtime ->
     head_timestamp olddata = ok recent ->
     py_int recent = ok r ->
     py_int newtime = ok n ->
     r < n ->
     loop_body newdata i olddata v = (v', ok olddata') ->
     head_timestamp olddata' = ok newtime) /\
  out_json w' =
    Some (json_dumps
            (state_doc
               (fold_left merge_step
                          (rev (firstn (Z.to_nat grabbed) batch)) l))).
Proof.
  intros Hn Hb Hf Ho Hg Hrun. split; [|split].
  - replace (grabbed - 1) with (Z.of_nat (Z.to_nat grabbed) - 1) by lia.
    apply py_range_countdown.
  - intros i olddata olddata' img. intros.
    eapply loop_body_inserts; eassumption.
  - now destruct (successful_run grabbed resp file newdata batch l w w'
                    Hn Hb Hf Ho Hg Hrun) as (_ & _ & _ & Hout).
Qed.

(** C8. The run fails, leaving the file and the output as they were,
    when [out.json] does not exist, and when the list it holds is
    empty. *)
Theorem missing_state_fails :
  (forall (grabbed : Z) (response : res string) (w : world),
     out_json w = None ->
     exists e : exn, update_script grabbed response w = (w, raise e)) /\
  (forall (grabbed : Z) (response : res string) (file : string)
          (olddata : json) (w : world),
     0 < grabbed ->
     out_json w = Some file ->
     json_loads file = Some olddata ->
     subscript_key olddata "list" = ok (JList []) ->
     exists e : exn, update_script grabbed response w = (w, raise e)).
Proof.
  split.
  - intros grabbed response w Hf.
    unfold update_script, bind, lift, read_out_json.
    destruct response as [e|p]; [now exists e|].
    destruct (json_load p) as [e|newdata]; [now exists e|].
    rewrite Hf. now exists FileNotFoundError.
  - intros grabbed response file olddata w Hg Hf Ho Hl.
    destruct response as [e|p]; [now exists e|].
    destruct (json_loads p) as [newdata|] eqn:Hn.
    + rewrite (update_script_prologue grabbed p file newdata olddata w
                 Hn Hf Ho Hg).
      destruct (Z.to_nat grabbed) as [|k] eqn:Ek; [lia|].
      rewrite seq_S, rev_app_distr. cbn [rev app map for_each Nat.add].
      destruct (loop_body_empty_list newdata (Z.of_nat k) olddata w Hl)
        as [e He].
      exists e. unfold bind. now rewrite He.
    + exists JSONDecodeError.
      unfold update_script, bind, lift, json_load. now rewrite Hn.
Qed.

End Merger.

(* ------------------------------------------------------------------ *)
(** ** One write per iteration against a single write *)

Section WriteOnce.
Context `{PyRuntime}.

Lemma loop_body_no_write_typed (newdata : json) (batch : list ImageRecord)
    (i : nat) (r : ImageRecord) (l : ImageList) (w : world) :
  fetched_batch newdata = Some batch ->
  nth_error batch i = Some r ->
  l <> [] ->
  loop_body_no_write newdata (Z.of_nat i) (state_doc l) w =
  (mkWorld (out_json w) (stdout w ++ notifications l [r]),
   ok (state_doc (merge_step l r))).
Proof.
  intros Hb Hi Hl. destruct l as [|h tl]; [congruence|].
  pose proof (fetch_image newdata batch i Hb) as Hf. rewrite Hi in Hf.
  destruct Hf as (img & Himg & Hr).
  destruct (image_record_fields img r Hr) as [Ht _].
  unfold loop_body_no_write, bind, lift. rewrite Himg. unfold ok at 1.
  rewrite Ht. unfold ok at 1. rewrite head_timestamp_state. unfold ok at 1.
  simpl py_int. unfold ok at 1 2. simpl notifications.
  destruct (timestamp h <? timestamp r) eqn:E.
  - rewrite (insert_front_state _ _ _ Hr).
    unfold merge_step. rewrite E. reflexivity.
  - unfold merge_step. rewrite E. unfold ret.
    rewrite app_nil_r. now destruct w.
Qed.

Lemma for_each_no_write_typed (newdata : json) (batch : list ImageRecord) :
  fetched_batch newdata = Some batch ->
  forall (indices : list nat) (rs : list ImageRecord),
    map (nth_error batch) indices = map Some rs ->
    forall (l : ImageList) (w : world),
      l <> [] ->
      for_each (map Z.of_nat indices) (loop_body_no_write newdata)
               (state_doc l) w =
      (mkWorld (out_json w) (stdout w ++ notifications l rs),
       ok (state_doc (fold_left merge_step rs l))).
Proof.
  intros Hb indices.
  induction indices as [|i indices IH]; intros rs Hrs l w Hl.
  - destruct rs; [|discriminate]. cbn. rewrite app_nil_r. now destruct w.
  - destruct rs as [|r rs]; [discriminate|].
    injection Hrs as Hi Hrs.
    cbn [map for_each]. unfold bind.
    rewrite (loop_body_no_write_typed newdata batch i r l w Hb Hi Hl).
    unfold ok at 1.
    rewrite (IH rs Hrs (merge_step l r) _ (merge_step_nonempty l r Hl)).
    cbn [out_json stdout fold_left]. rewrite <- app_assoc.
    change (notifications l (r :: rs)) with (notifications l ([r] ++ rs)).
    now rewrite notifications_app.
Qed.

Lemma update_single_write_typed (grabbed : Z) (resp file : string)
    (newdata : json) (batch : list ImageRecord) (l : ImageList) (w : world) :
  json_loads resp = Some newdata ->
  fetched_batch newdata = Some batch ->
  out_json w = Some file ->
  json_loads file = Some (state_doc l) ->
  0 < grabbed ->
  update_single_write grabbed (inr resp) w =
  match l with
  | [] => (w, raise IndexError)
  | _ :: _ =>
      if grabbed <=? Z.of_nat (List.length batch)
      then (world_after w l (visited grabbed batch), ok tt)
      else (w, raise IndexError)
  end.
Proof.
  intros Hn Hb Hf Ho Hg.
  unfold update_single_write, bind at 1 2 3 4 5, lift, read_out_json, json_load.
  rewrite Hn, Hf. unfold ok at 1 2. rewrite Ho. unfold ok at 1.
  replace (grabbed - 1) with (Z.of_nat (Z.to_nat grabbed) - 1) by lia.
  rewrite py_range_countdown. unfold ok at 1.
  destruct (Z.to_nat grabbed) as [|k] eqn:Ek; [lia|].
  assert (Hgk : grabbed = Z.of_nat (S k)) by lia.
  destruct (Z.leb_spec grabbed (Z.of_nat (List.length batch))) as [Hle|Hgt].
  - destruct l as [|h tl].
    + rewrite seq_S, rev_app_distr. cbn [rev app map for_each Nat.add].
      unfold bind.
      destruct (nth_error batch k) as [r|] eqn:Ei;
        [|apply nth_error_None in Ei; lia].
      pose proof (fetch_image newdata batch k Hb) as Hfi. rewrite Ei in Hfi.
      destruct Hfi as (img & Himg & Hr).
      destruct (image_record_fields img r Hr) as [Ht _].
      unfold loop_body_no_write, bind, lift. rewrite Himg. unfold ok at 1.
      rewrite Ht. unfold ok at 1. now rewrite head_timestamp_empty.
    + unfold bind.
      rewrite (for_each_no_write_typed newdata batch Hb _
                 (visited grabbed batch)); [| |discriminate].
      * unfold write_out_json, ret, ok, world_after. cbn [stdout].
        destruct (visited grabbed batch) eqn:Ev; [|reflexivity].
        exfalso. unfold visited in Ev. rewrite Ek in Ev.
        destruct batch as [|b batch]; [simpl in Hle; lia|].
        cbn [firstn rev] in Ev. now destruct (rev (firstn k batch)).
      * rewrite Hgk. apply visited_indices. lia.
  - assert (Hi : nth_error batch k = None) by (apply nth_error_None; lia).
    rewrite seq_S, rev_app_distr. cbn [rev app map for_each Nat.add].
    unfold bind.
    pose proof (fetch_image newdata batch k Hb) as Hfi. rewrite Hi in Hfi.
    unfold loop_body_no_write, bind, lift. rewrite Hfi.
    now destruct l.
Qed.

(** C9. Writing the file in every iteration comes to the same as one
    write after the batch: on every persisted list and every fetched
    batch the script of [update.py] and the script with a single final
    write end in the same world, with the same file content and the same
    outcome; when the run succeeds that content is the merged list, with
    every insertion in it. *)
Theorem per_iteration_write_is_single_write (grabbed : Z)
    (resp file : string) (newdata : json) (batch : list ImageRecord)
    (l : ImageList) (w : world) :
  json_loads resp = Some newdata ->
  fetched_batch newdata = Some batch ->
  out_json w = Some file ->
  json_loads file = Some (state_doc l) ->
  0 < grabbed ->
  update_script grabbed (inr resp) w =
    update_single_write grabbed (inr resp) w /\
  (forall w' : world,
     update_script grabbed (inr resp) w = (w', ok tt) ->
     out_json w' = Some (json_dumps (state_doc (merge grabbed l batch)))).
Proof.
  intros Hn Hb Hf Ho Hg. split.
  - rewrite (update_script_typed grabbed resp file newdata batch l w
               Hn Hb Hf Ho Hg).
    now rewrite (update_single_write_typed grabbed resp file newdata batch l w
                   Hn Hb Hf Ho Hg).
  - intros w' Hrun.
    now destruct (successful_run grabbed resp file newdata batch l w w'
                    Hn Hb Hf Ho Hg Hrun) as (_ & _ & _ & Hout).
Qed.

End WriteOnce.

(* ------------------------------------------------------------------ *)
(** ** The theorems at work on the reference runtime *)

Section Runs.
Import Reference Fixtures Cases.

Lemma end_to_end_scenario_run :
  @update runtime (inr resp_102_101) (world_of file_100) =
  (mkWorld
     (Some (text "{'list': [[102, 'url102'], [101, 'url101'], [100, 'url100']]}"))
     [FString "inserted new tiem " (JInt 101);
      FString "inserted new tiem " (JInt 102)],
   ok tt) /\
  @update runtime (inr resp_103_101) (world_of file_100_90) =
  (mkWorld
     (Some (text "{'list': [[103, 'c'], [101, 'b'], [100, 'u'], [90, 'v']]}"))
     [FString "inserted new tiem " (JInt 101);
      FString "inserted new tiem " (JInt 103)],
   ok tt).
Proof.
  split.
  - apply (proj1 (@end_to_end_scenario runtime resp_102_101 file_100
                    (parsed resp_102_101) (world_of file_100)
                    eq_refl eq_refl)); reflexivity.
  - apply (proj2 (@end_to_end_scenario runtime resp_103_101 file_100_90
                    (parsed resp_103_101) (world_of file_100_90)
                    eq_refl eq_refl) "u" [(90, "v")]); reflexivity.
Defined.

Lemma merge_keeps_descending_run :
  descending [(100, "u"); (90, "v")] /\
  out_json (fst (@update runtime (inr resp_102_101) (world_of file_100_90))) =
    Some (dumps (state_doc [(102, "url102"); (101, "url101");
                            (100, "u"); (90, "v")])) /\
  descending [(102, "url102"); (101, "url101"); (100, "u"); (90, "v")].
Proof.
  assert (Hd : descending [(100, "u"); (90, "v")])
    by (apply descendingb_spec; reflexivity).
  split; [exact Hd|].
  exact (@merge_keeps_descending runtime 2 resp_102_101 file_100_90
           (parsed resp_102_101) [(102, "url102"); (101, "url101")]
           [(100, "u"); (90, "v")] (world_of file_100_90)
           (fst (@update runtime (inr resp_102_101) (world_of file_100_90)))
           eq_refl eq_refl eq_refl eq_refl eq_refl Hd eq_refl).
Defined.

Lemma merge_only_prepends_run :
  exists new : list ImageRecord,
    out_json (fst (@update runtime (inr resp_102_101) (world_of file_100_90))) =
      Some (dumps (state_doc (new ++ [(100, "u"); (90, "v")]))) /\
    incl new [(102, "url102"); (101, "url101")].
Proof.
  exact (@merge_only_prepends runtime 2 resp_102_101 file_100_90
           (parsed resp_102_101) [(102, "url102"); (101, "url101")]
           [(100, "u"); (90, "v")] (world_of file_100_90)
           (fst (@update runtime (inr resp_102_101) (world_of file_100_90)))
           eq_refl eq_refl eq_refl eq_refl eq_refl eq_refl).
Defined.

Lemma stale_batch_keeps_list_run :
  fetched_batch (parsed resp_150_100) = Some [(150, "x"); (100, "y")] /\
  loads file_200 = Some (state_doc [(200, "z"); (120, "q")]) /\
  dumps (state_doc [(200, "z"); (120, "q")]) = file_200 /\
  @update runtime (inr resp_150_100) (world_of file_200) =
  (world_of file_200, ok tt).
Proof.
  split; [reflexivity|]. split; [reflexivity|]. split; [reflexivity|].
  refine (proj2 (proj2 (@stale_batch_keeps_list runtime 2 resp_150_100
                          file_200 (parsed resp_150_100)
                          [(150, "x"); (100, "y")] (200, "z") [(120, "q")]
                          (world_of file_200)
                          eq_refl eq_refl eq_refl eq_refl _ _)) eq_refl).
  - split; [reflexivity|discriminate].
  - repeat constructor; discriminate.
Defined.

(** C5 as stated fails on a state file that is not in the layout of
    [json.dumps]: with stored head 200 and the stale batch
    [(150, "x"), (100, "y")] the list is unchanged, yet a file written
    without spaces after its separators, or ending in a newline, is
    rewritten with other bytes. *)
Lemma stale_batch_rewrites_other_layout :
  fetched_batch (parsed resp_150_100) = Some [(150, "x"); (100, "y")] /\
  Forall (fun r => timestamp r <= timestamp (200, "z"))
         [(150, "x"); (100, "y")] /\
  (loads file_200_compact = Some (state_doc [(200, "z"); (120, "q")]) /\
   @update runtime (inr resp_150_100) (world_of file_200_compact) =
     (world_of file_200, ok tt) /\
   file_200 <> file_200_compact) /\
  (loads file_200_newline = Some (state_doc [(200, "z"); (120, "q")]) /\
   @update runtime (inr resp_150_100) (world_of file_200_newline) =
     (world_of file_200, ok tt) /\
   file_200 <> file_200_newline).
Proof.
  split; [reflexivity|]. split; [repeat constructor; discriminate|].
  split; (split; [reflexivity|]; split; [reflexivity|]);
    vm_compute; discriminate.
Qed.

Lemma second_run_changes_nothing_run :
  let w1 := fst (@update runtime (inr resp_102_101) (world_of file_100)) in
  @update runtime (inr resp_102_101) (world_of file_100) = (w1, ok tt) /\
  @update runtime (inr resp_102_101) w1 = (w1, ok tt).
Proof.
  intros w1. split; [reflexivity|].
  apply (proj2 (@second_run_changes_nothing runtime 2 resp_102_101 file_100
                  (parsed resp_102_101) [(102, "url102"); (101, "url101")]
                  [(100, "url100")] (world_of file_100) w1
                  eq_refl eq_refl eq_refl eq_refl eq_refl eq_refl)).
  reflexivity.
Defined.

Lemma newer_batch_all_inserted_run :
  @update runtime (inr resp_102_101) (world_of file_100_90) =
  (mkWorld
     (Some (text "{'list': [[102, 'url102'], [101, 'url101'], [100, 'u'], [90, 'v']]}"))
     [FString "inserted new tiem " (JInt 101);
      FString "inserted new tiem " (JInt 102)],
   ok tt).
Proof.
  apply (@newer_batch_all_inserted runtime 2 resp_102_101 file_100_90
           (parsed resp_102_101) [(102, "url102"); (101, "url101")]
           [(102, "url102")] (101, "url101") (100, "u") [(90, "v")]
           (world_of file_100_90)); try reflexivity.
  apply descendingb_spec; reflexivity.
Defined.

(** C7 as stated fails on a batch whose two images share a timestamp:
    the oldest fetched timestamp, 105, is greater than the stored head,
    100, yet only one of the two images is inserted. *)
Lemma tie_in_batch_inserts_once :
  fetched_batch (parsed resp_105_105) = Some [(105, "a"); (105, "b")] /\
  loads file_100 = Some (state_doc [(100, "url100")]) /\
  timestamp (100, "url100") < timestamp (105, "b") /\
  @update runtime (inr resp_105_105) (world_of file_100) =
  (mkWorld (Some (text "{'list': [[105, 'b'], [100, 'url100']]}"))
           [FString "inserted new tiem " (JInt 105)],
   ok tt) /\
  out_json (fst (@update runtime (inr resp_105_105) (world_of file_100))) <>
  Some (dumps (state_doc ([(105, "a"); (105, "b")] ++ [(100, "url100")]))).
Proof.
  repeat split; try reflexivity. vm_compute. discriminate.
Qed.

Lemma equal_timestamp_not_inserted_run :
  @loop_body runtime (parsed resp_100_99) 0 (state_doc [(100, "url100")])
             (world_of file_100) =
  (world_of file_100, ok (state_doc [(100, "url100")])).
Proof.
  eapply (@equal_timestamp_not_inserted runtime (parsed resp_100_99) 0
            (state_doc [(100, "url100")]) _ (JInt 100) (JInt 100) 100
            (world_of file_100)); reflexivity.
Defined.

Lemma merge_walks_backwards_run :
  py_range (numgrabbed - 1) (-1) (-1) = ok [1; 0] /\
  out_json (fst (@update runtime (inr resp_102_101) (world_of file_100))) =
    Some (dumps (state_doc
                   (merge_step (merge_step [(100, "url100")] (101, "url101"))
                               (102, "url102")))).
Proof.
  destruct (@merge_walks_backwards runtime 2 resp_102_101 file_100
              (parsed resp_102_101) [(102, "url102"); (101, "url101")]
              [(100, "url100")] (world_of file_100)
              (fst (@update runtime (inr resp_102_101) (world_of file_100)))
              eq_refl eq_refl eq_refl eq_refl eq_refl eq_refl)
    as (Horder & _ & Hout).
  split; [exact Horder|exact Hout].
Defined.

Lemma missing_state_fails_run :
  (exists e : exn,
     @update runtime (inr resp_102_101) no_file = (no_file, raise e)) /\
  (exists e : exn,
     @update runtime (inr resp_102_101) (world_of file_empty) =
     (world_of file_empty, raise e)).
Proof.
  split.
  - exact (proj1 (@missing_state_fails runtime) 2 (inr resp_102_101) no_file
             eq_refl).
  - exact (proj2 (@missing_state_fails runtime) 2 (inr resp_102_101)
             file_empty (parsed file_empty) (world_of file_empty)
             eq_refl eq_refl eq_refl eq_refl).
Defined.

Lemma per_iteration_write_is_single_write_run :
  @update runtime (inr resp_102_101) (world_of file_100) =
  @update_single_write runtime 2 (inr resp_102_101) (world_of file_100).
Proof.
  exact (proj1 (@per_iteration_write_is_single_write runtime 2 resp_102_101
                  file_100 (parsed resp_102_101)
                  [(102, "url102"); (101, "url101")] [(100, "url100")]
                  (world_of file_100) eq_refl eq_refl eq_refl eq_refl eq_refl)).
Defined.

(** Outside image records the two scripts can part: when the image
    met second lacks its url, [update.py] has already written the
    insertion of the first, and no write is rolled back, whereas the
    single-write script has written nothing. *)
Remark partial_write_on_malformed_image :
  let resp :=
    text ("{'images': [{'imageTimestamp': 102}, " ++
          "{'imageTimestamp': 101, 'imageUrl': 'url101'}]}")%string in
  @update runtime (inr resp) (world_of file_100) =
  (mkWorld (Some (text "{'list': [[101, 'url101'], [100, 'url100']]}"))
           [FString "inserted new tiem " (JInt 101)],
   raise KeyError) /\
  @update_single_write runtime 2 (inr resp) (world_of file_100) =
  (mkWorld (Some file_100) [FString "inserted new tiem " (JInt 101)],
   raise KeyError).
Proof. split; reflexivity. Qed.

(** The importer and then the merger on the same response: the merger
    finds nothing new and leaves the file as the importer wrote it. *)
Remark import_then_update :
  let w0 := fst (@get_script runtime (inr resp_102_101) no_file) in
  out_json w0 =
    Some (text "{'list': [[102, 'url102'], [101, 'url101']]}") /\
  out_json (fst (@update runtime (inr resp_102_101) w0)) = out_json w0 /\
  snd (@update runtime (inr resp_102_101) w0) = ok tt.
Proof. repeat split; reflexivity. Qed.

End Runs.

(* ------------------------------------------------------------------ *)
(** ** The merge loop on arbitrary documents *)

Section Dict.

Lemma dict_get_set_other (k k' : string) (v : json)
    (kvs : list (string * json)) :
  k' <> k -> dict_get k' (dict_set k v kvs) = dict_get k' kvs.
Proof.
  intros Hk. induction kvs as [|[k0 v0] rest IH]; simpl.
  - destruct (String.eqb_spec k' k); [contradiction|reflexivity].
  - destruct (String.eqb_spec k k0) as [->|Hne]; simpl.
    + destruct (String.eqb_spec k' k0); [contradiction|reflexivity].
    + destruct (String.eqb k' k0); [reflexivity|exact IH].
Qed.

Lemma dict_set_set (k : string) (v1 v2 : json) (kvs : list (string * json)) :
  dict_set k v2 (dict_set k v1 kvs) = dict_set k v2 kvs.
Proof.
  induction kvs as [|[k0 v0] rest IH]; simpl.
  - now rewrite String.eqb_refl.
  - destruct (String.eqb k k0) eqn:E; simpl; rewrite E; [reflexivity|].
    now rewrite IH.
Qed.

Lemma dict_set_same (k : string) (v : json) (kvs : list (string * json)) :
  dict_get k kvs = Some v -> dict_set k v kvs = kvs.
Proof.
  induction kvs as [|[k0 v0] rest IH]; simpl; [discriminate|].
  destruct (String.eqb k k0) eqn:E.
  - now intros [= ->].
  - intros Hg. now rewrite IH.
Qed.

Lemma dict_set_keys (k : string) (v : json) (kvs : list (string * json)) :
  dict_get k kvs <> None -> map fst (dict_set k v kvs) = map fst kvs.
Proof.
  induction kvs as [|[k0 v0] rest IH]; simpl; [congruence|].
  destruct (String.eqb k k0) eqn:E; [reflexivity|].
  intros Hg. simpl. now rewrite IH.
Qed.

End Dict.

Section AnyDocument.
Context `{PyRuntime}.

(** The three ways an iteration ends, whatever the documents hold: it
    raises with the world untouched; or it skips the image and rewrites
    the file with the document unchanged; or it prepends the entry
    [[imageTimestamp, imageUrl]], with the values as fetched, prints the
    notification and writes the new document. *)
Lemma loop_body_cases (newdata : json) (i : Z) (olddata : json) (w : world) :
  (exists e : exn, loop_body newdata i olddata w = (w, raise e)) \/
  loop_body newdata i olddata w =
    (mkWorld (Some (json_dumps olddata)) (stdout w), ok olddata) \/
  (exists (kvs : list (string * json)) (l0 : list json) (newtime u : json),
     olddata = JObj kvs /\
     dict_get "list" kvs = Some (JList l0) /\
     loop_body newdata i olddata w =
     (mkWorld
        (Some (json_dumps
                 (JObj (dict_set "list" (JList (JList [newtime; u] :: l0)) kvs))))
        (stdout w ++ [FString "inserted new tiem " newtime]),
      ok (JObj (dict_set "list" (JList (JList [newtime; u] :: l0)) kvs)))).
Proof.
  unfold loop_body, bind, lift.
  destruct (rbind (subscript_key newdata "images") _) as [e|img];
    [left; now exists e|].
  destruct (subscript_key img "imageTimestamp") as [e|newtime] eqn:Hnew;
    [left; now exists e|].
  destruct (head_timestamp olddata) as [e|recent] eqn:Hrec;
    [left; now exists e|].
  destruct (py_int recent) as [e|r]; [left; now exists e|].
  destruct (py_int newtime) as [e|n]; [left; now exists e|].
  destruct (r <? n); [|right; left; reflexivity].
  unfold insert_front. unfold head_timestamp in Hrec.
  destruct olddata as [| | | | |kvs]; try discriminate.
  unfold subscript_key at 1. unfold subscript_key at 1 in Hrec.
  destruct (dict_get "list" kvs) as [lst|] eqn:Hl; [|discriminate].
  cbn [rbind ok].
  destruct lst as [| | | | l0 |];
    try (left; now exists AttributeError).
  cbn [insert_method rbind ok]. rewrite Hnew. cbn [rbind ok].
  destruct (subscript_key img "imageUrl") as [e|u]; [left; now exists e|].
  right; right. exists kvs, l0, newtime, u.
  unfold subscript_key. rewrite Hl.
  cbn [rbind ok insert_method]. rewrite insert_at_front.
  split; [reflexivity|]. split; reflexivity.
Qed.

(** The document after some iterations: the one before, or the one
    before with records prepended to its list. *)
Lemma for_each_frame (newdata : json) (indices : list Z) :
  forall (olddata olddata' : json) (w w' : world),
    for_each indices (loop_body newdata) olddata w = (w', ok olddata') ->
    (olddata' = olddata \/
     exists (kvs : list (string * json)) (l0 new : list json),
       olddata = JObj kvs /\
       dict_get "list" kvs = Some (JList l0) /\
       olddata' = JObj (dict_set "list" (JList (new ++ l0)) kvs)) /\
    (indices <> [] -> out_json w' = Some (json_dumps olddata')).
Proof.
  induction indices as [|i indices IH]; intros olddata olddata' w w' Hrun.
  - injection Hrun as <- <-. split; [now left|congruence].
  - cbn [for_each] in Hrun. unfold bind in Hrun.
    destruct (loop_body_cases newdata i olddata w)
      as [[e He]|[Hskip|(kvs & l0 & newtime & u & -> & Hl & Hins)]].
    + rewrite He in Hrun. discriminate.
    + rewrite Hskip in Hrun. unfold ok at 1 in Hrun.
      destruct (IH _ _ _ _ Hrun) as [Hdoc Hout]. split; [exact Hdoc|].
      intros _. destruct indices as [|j indices]; [|apply Hout; discriminate].
      now injection Hrun as <- <-.
    + rewrite Hins in Hrun. unfold ok at 1 in Hrun.
      destruct (IH _ _ _ _ Hrun) as [Hdoc Hout]. split.
      * right. exists kvs, l0.
        destruct Hdoc as [->|(kvs1 & l1 & new & [= <-] & Hl1 & ->)].
        -- exists [JList [newtime; u]]. now split.
        -- rewrite dict_get_set in Hl1. injection Hl1 as <-.
           exists (new ++ [JList [newtime; u]]).
           split; [reflexivity|]. split; [exact Hl|].
           now rewrite dict_set_set, <- app_assoc.
      * intros _. destruct indices as [|j indices]; [|apply Hout; discriminate].
        now injection Hrun as <- <-.
Qed.

End AnyDocument.

(* ------------------------------------------------------------------ *)
(** ** Further properties of [update.py] *)

Section UpdateMore.
Context `{PyRuntime}.

Lemma subscript_index_head (x : json) (l : list json) :
  subscript_index (JList (x :: l)) 0 = ok x.
Proof. exact (subscript_index_list (x :: l) 0). Qed.


(** X2. A successful run on any state document leaves every key other than
    ["list"] with the value it had, and the list either as it was or
    with entries prepended to it. *)
Theorem update_keeps_other_keys (grabbed : Z) (resp file : string)
    (newdata olddata : json) (w w' : world) :
  0 < grabbed ->
  json_loads resp = Some newdata ->
  out_json w = Some file ->
  json_loads file = Some olddata ->
  update_script grabbed (inr resp) w = (w', ok tt) ->
  exists olddata' : json,
    out_json w' = Some (json_dumps olddata') /\
    (forall k : string,
       k <> "list" -> subscript_key olddata' k = subscript_key olddata k) /\
    (subscript_key olddata' "list" = subscript_key olddata "list" \/
     exists l0 new : list json,
       subscript_key olddata "list" = ok (JList l0) /\
       subscript_key olddata' "list" = ok (JList (new ++ l0))).
Proof.
  intros Hg Hn Hf Ho Hrun.
  rewrite (update_script_prologue grabbed resp file newdata olddata w
             Hn Hf Ho Hg) in Hrun.
  unfold bind in Hrun.
  destruct (for_each _ (loop_body newdata) olddata w) as [w1 [e|olddata']]
    eqn:Hloop; [discriminate|].
  injection Hrun as <-.
  destruct (for_each_frame newdata _ _ _ _ _ Hloop) as [Hdoc Hout].
  exists olddata'. split.
  - apply Hout. destruct (Z.to_nat grabbed) as [|k] eqn:Ek; [lia|].
    rewrite seq_S, rev_app_distr. discriminate.
  - destruct Hdoc as [->|(kvs & l0 & new & -> & Hl & ->)].
    + split; [reflexivity|now left].
    + split.
      * intros k Hk. unfold subscript_key.
        now rewrite dict_get_set_other.
      * right. exists l0, new. unfold subscript_key.
        now rewrite Hl, dict_get_set.
Qed.

(** X3. A response with fewer images than the script asks for makes the
    first iteration raise [IndexError]: nothing is inserted or written,
    however new the images received are. *)
Theorem short_batch_raises (grabbed : Z) (resp file : string)
    (newdata olddata : json) (imgs : list json) (w : world) :
  json_loads resp = Some newdata ->
  subscript_key newdata "images" = ok (JList imgs) ->
  Z.of_nat (List.length imgs) < grabbed ->
  out_json w = Some file ->
  json_loads file = Some olddata ->
  update_script grabbed (inr resp) w = (w, raise IndexError).
Proof.
  intros Hn Himgs Hlen Hf Ho.
  assert (Hg : 0 < grabbed) by lia.
  rewrite (update_script_prologue grabbed resp file newdata olddata w
             Hn Hf Ho Hg).
  destruct (Z.to_nat grabbed) as [|k] eqn:Ek; [lia|].
  rewrite seq_S, rev_app_distr. cbn [rev app map for_each Nat.add].
  unfold bind at 1 2, loop_body, bind at 1, lift.
  rewrite Himgs. cbn [rbind ok]. rewrite subscript_index_list.
  assert (Hi : nth_error imgs k = None) by (apply nth_error_None; lia).
  now rewrite Hi.
Qed.

(** X4. An inserting iteration stores the fetched values themselves: the
    new head entry is [[imageTimestamp, imageUrl]] as the response
    carries them (a timestamp sent as a string stays a string), the
    notification shows the same value, and the file holds the new
    document. *)
Theorem insertion_stores_fetched_values (newdata : json) (i : Z)
    (kvs : list (string * json)) (first : json) (rest : list json)
    (img newtime u recent : json) (r n : Z) (w : world) :
  rbind (subscript_key newdata "images")
        (fun imgs => subscript_index imgs i) = ok img ->
  subscript_key img "imageTimestamp" = ok newtime ->
  subscript_key img "imageUrl" = ok u ->
  dict_get "list" kvs = Some (JList (first :: rest)) ->
  subscript_index first 0 = ok recent ->
  py_int recent = ok r ->
  py_int newtime = ok n ->
  r < n ->
  loop_body newdata i (JObj kvs) w =
  (mkWorld
     (Some (json_dumps
              (JObj (dict_set "list"
                       (JList (JList [newtime; u] :: first :: rest)) kvs))))
     (stdout w ++ [FString "inserted new tiem " newtime]),
   ok (JObj (dict_set "list"
               (JList (JList [newtime; u] :: first :: rest)) kvs))).
Proof.
  intros Himg Hnew Hu Hl Hfirst Hr Hn Hlt.
  unfold loop_body, bind, lift.
  rewrite Himg. unfold ok at 1. rewrite Hnew. unfold ok at 1.
  unfold head_timestamp, insert_front, subscript_key at 1 2. rewrite Hl.
  cbn [rbind ok]. rewrite subscript_index_head. cbn [rbind ok].
  rewrite Hfirst.
  unfold ok at 1. rewrite Hr. unfold ok at 1. rewrite Hn. unfold ok at 1.
  replace (r <? n) with true by (symmetry; now apply Z.ltb_lt).
  cbn [insert_method rbind ok]. rewrite Hnew, Hu. cbn [rbind ok].
  rewrite insert_at_front. reflexivity.
Qed.



End UpdateMore.

(* ------------------------------------------------------------------ *)
(** ** Further properties of runs on image records *)

Section RecordsMore.
Context `{PyRuntime}.

Lemma notifications_length (rs : list ImageRecord) (l : ImageList) :
  l <> [] ->
  (List.length (notifications l rs) + List.length l =
   List.length (fold_left merge_step rs l))%nat.
Proof.
  revert l. induction rs as [|r rs IH]; intros l Hl; [reflexivity|].
  pose proof (IH (merge_step l r) (merge_step_nonempty l r Hl)) as Hrec.
  destruct l as [|h tl]; [congruence|].
  cbn [notifications fold_left] in *. cbn [merge_step] in *.
  destruct (timestamp h <? timestamp r); cbn [List.length] in *; lia.
Qed.

Lemma world_after_stdout (w : world) (l : ImageList) (rs : list ImageRecord) :
  stdout (world_after w l rs) = stdout w ++ notifications l rs.
Proof.
  destruct rs; [|reflexivity]. cbn. now rewrite app_nil_r.
Qed.

(** X6. After a successful run the head of the list is at least as new as
    the head before and as every fetched image the loop looked at. *)
Theorem head_is_newest_seen (grabbed : Z) (resp file : string)
    (newdata : json) (batch : list ImageRecord) (h : ImageRecord)
    (tl : ImageList) (w w' : world) :
  json_loads resp = Some newdata ->
  fetched_batch newdata = Some batch ->
  out_json w = Some file ->
  json_loads file = Some (state_doc (h :: tl)) ->
  0 < grabbed ->
  update_script grabbed (inr resp) w = (w', ok tt) ->
  exists (h' : ImageRecord) (tl' : ImageList),
    out_json w' = Some (json_dumps (state_doc (h' :: tl'))) /\
    timestamp h <= timestamp h' /\
    Forall (fun r => timestamp r <= timestamp h')
           (firstn (Z.to_nat grabbed) batch).
Proof.
  intros Hn Hb Hf Ho Hg Hrun.
  destruct (successful_run grabbed resp file newdata batch _ w w'
              Hn Hb Hf Ho Hg Hrun) as (_ & _ & _ & Hout).
  destruct (fold_merge_head (visited grabbed batch) h tl)
    as (h' & tl' & Hm & Hh & Hall).
  exists h', tl'. unfold merge in Hout. rewrite Hm in Hout.
  repeat split; [exact Hout|exact Hh|].
  apply Forall_rev in Hall. unfold visited in Hall.
  now rewrite rev_involutive in Hall.
Qed.

(** X7. A successful run prints exactly one notification for each record it
    adds to the list. *)
Theorem one_notification_per_insertion (grabbed : Z) (resp file : string)
    (newdata : json) (batch : list ImageRecord) (l : ImageList)
    (w w' : world) :
  json_loads resp = Some newdata ->
  fetched_batch newdata = Some batch ->
  out_json w = Some file ->
  json_loads file = Some (state_doc l) ->
  0 < grabbed ->
  update_script grabbed (inr resp) w = (w', ok tt) ->
  exists (lines : list line) (l' : ImageList),
    stdout w' = stdout w ++ lines /\
    out_json w' = Some (json_dumps (state_doc l')) /\
    (List.length lines + List.length l = List.length l')%nat.
Proof.
  intros Hn Hb Hf Ho Hg Hrun.
  destruct (successful_run grabbed resp file newdata batch l w w'
              Hn Hb Hf Ho Hg Hrun) as (Hl & _ & -> & Hout).
  exists (notifications l (visited grabbed batch)), (merge grabbed l batch).
  split; [apply world_after_stdout|]. split; [exact Hout|].
  now apply notifications_length.
Qed.

(** X8. The four outcomes of [update.py] on a non-empty list and two fetched
    records [r0] (received first) and [r1]: [r1] is compared with the
    stored head, then [r0] with the head that comparison left. *)
Theorem update_outcomes (resp file : string) (newdata : json)
    (r0 r1 : ImageRecord) (rest : list ImageRecord) (h : ImageRecord)
    (tl : ImageList) (w : world) :
  json_loads resp = Some newdata ->
  fetched_batch newdata = Some (r0 :: r1 :: rest) ->
  out_json w = Some file ->
  json_loads file = Some (state_doc (h :: tl)) ->
  snd (update (inr resp) w) = ok tt /\
  out_json (fst (update (inr resp) w)) =
  Some (json_dumps (state_doc
    (if timestamp h <? timestamp r1
     then (if timestamp r1 <? timestamp r0
           then r0 :: r1 :: h :: tl
           else r1 :: h :: tl)
     else (if timestamp h <? timestamp r0
           then r0 :: h :: tl
           else h :: tl)))).
Proof.
  intros Hn Hb Hf Ho. unfold update.
  rewrite (update_script_typed numgrabbed resp file newdata _ _ w
             Hn Hb Hf Ho eq_refl).
  replace (numgrabbed <=? Z.of_nat (List.length (r0 :: r1 :: rest)))
    with true by (symmetry; apply Z.leb_le; cbn [List.length]; unfold numgrabbed; lia).
  split; [reflexivity|].
  change (visited numgrabbed (r0 :: r1 :: rest)) with [r1; r0].
  cbn [fst out_json world_after fold_left merge_step].
  destruct (timestamp h <? timestamp r1); cbn [merge_step];
    [destruct (timestamp r1 <? timestamp r0)
    |destruct (timestamp h <? timestamp r0)]; reflexivity.
Qed.

(** X9. Images after the first [grabbed] of a response play no part: two
    responses that agree on those images lead to the same run. *)
Theorem later_images_ignored (grabbed : Z) (resp1 resp2 file : string)
    (newdata1 newdata2 : json) (batch1 batch2 : list ImageRecord)
    (l : ImageList) (w : world) :
  json_loads resp1 = Some newdata1 ->
  fetched_batch newdata1 = Some batch1 ->
  json_loads resp2 = Some newdata2 ->
  fetched_batch newdata2 = Some batch2 ->
  out_json w = Some file ->
  json_loads file = Some (state_doc l) ->
  0 < grabbed ->
  firstn (Z.to_nat grabbed) batch1 = firstn (Z.to_nat grabbed) batch2 ->
  update_script grabbed (inr resp1) w = update_script grabbed (inr resp2) w.
Proof.
  intros Hn1 Hb1 Hn2 Hb2 Hf Ho Hg Hfirst.
  rewrite (update_script_typed grabbed resp1 file newdata1 batch1 l w
             Hn1 Hb1 Hf Ho Hg).
  rewrite (update_script_typed grabbed resp2 file newdata2 batch2 l w
             Hn2 Hb2 Hf Ho Hg).
  unfold visited. rewrite Hfirst.
  assert (Hlen : (grabbed <=? Z.of_nat (List.length batch1)) =
                 (grabbed <=? Z.of_nat (List.length batch2))).
  { apply (f_equal (@List.length _)) in Hfirst.
    rewrite !length_firstn in Hfirst.
    destruct (Z.leb_spec grabbed (Z.of_nat (List.length batch1)));
      destruct (Z.leb_spec grabbed (Z.of_nat (List.length batch2)));
      try reflexivity; lia. }
  now rewrite Hlen.
Qed.

(** X10. The importer and then the merger on one response whose first image
    is at least as new as the others looked at: the merger succeeds and
    leaves the world the importer left, once the library reads the
    importer's text back as the document written. *)
Theorem import_then_update_is_noop (grabbed : Z) (resp : string)
    (data : json) (r : ImageRecord) (batch : list ImageRecord) (w : world) :
  json_loads resp = Some data ->
  fetched_batch data = Some (r :: batch) ->
  0 < grabbed <= Z.of_nat (List.length (r :: batch)) ->
  Forall (fun x => timestamp x <= timestamp r)
         (firstn (Z.to_nat grabbed) (r :: batch)) ->
  json_loads (json_dumps (state_doc (r :: batch))) =
    Some (state_doc (r :: batch)) ->
  snd (get_script (inr resp) w) = ok tt /\
  update_script grabbed (inr resp) (fst (get_script (inr resp) w)) =
  (fst (get_script (inr resp) w), ok tt).
Proof.
  intros Hd Hb [Hg Hle] Hnewest Hback.
  destruct (get_script_typed resp data r batch w Hd Hb) as [first Hget].
  rewrite Hget. cbn [fst snd]. split; [reflexivity|].
  set (w1 := mkWorld (Some (json_dumps (state_doc (r :: batch)))) _).
  rewrite (update_script_typed grabbed resp
             (json_dumps (state_doc (r :: batch))) data (r :: batch)
             (r :: batch) w1 Hd Hb eq_refl Hback Hg).
  replace (grabbed <=? Z.of_nat (List.length (r :: batch))) with true
    by (symmetry; now apply Z.leb_le).
  apply Forall_rev in Hnewest.
  destruct (fold_merge_stale (visited grabbed (r :: batch)) r batch Hnewest)
    as [Hm Hp].
  unfold world_after. rewrite Hm, Hp, app_nil_r.
  now destruct (visited grabbed (r :: batch)).
Qed.

(** X11. On a list of records and a batch of records the run succeeds
    exactly when the list is not empty and the response has at least
    [grabbed] images; otherwise it raises [IndexError] and changes
    nothing. *)
Theorem run_succeeds_iff (grabbed : Z) (resp file : string)
    (newdata : json) (batch : list ImageRecord) (l : ImageList) (w : world) :
  json_loads resp = Some newdata ->
  fetched_batch newdata = Some batch ->
  out_json w = Some file ->
  json_loads file = Some (state_doc l) ->
  0 < grabbed ->
  (snd (update_script grabbed (inr resp) w) = ok tt <->
   l <> [] /\ grabbed <= Z.of_nat (List.length batch)) /\
  (snd (update_script grabbed (inr resp) w) <> ok tt ->
   update_script grabbed (inr resp) w = (w, raise IndexError)).
Proof.
  intros Hn Hb Hf Ho Hg.
  rewrite (update_script_typed grabbed resp file newdata batch l w
             Hn Hb Hf Ho Hg).
  destruct l as [|h tl].
  - split; [|reflexivity]. split; [discriminate|]. intros [Hl _]. congruence.
  - destruct (Z.leb_spec grabbed (Z.of_nat (List.length batch))) as [Hle|Hgt].
    + split; [|intros Hne; now contradiction Hne].
      split; [|reflexivity]. intros _. split; [discriminate|exact Hle].
    + split; [|reflexivity]. split; [discriminate|]. intros [_ Hle]. lia.
Qed.

End RecordsMore.

(* ------------------------------------------------------------------ *)
(** ** Properties of [get.py] *)

Section ImporterMore.
Context `{PyRuntime}.


(** What a successful loop of [get.py] appended: one entry
    [[imageTimestamp, imageUrl]] for each image, in order. *)
Lemma for_each_append_entries (imgs : list json) :
  forall (bigarr bigarr' : list json) (w w' : world),
    for_each imgs append_image bigarr w = (w', ok bigarr') ->
    exists entries : list json,
      bigarr' = bigarr ++ entries /\
      Forall2 (fun img e =>
                 exists t u : json,
                   subscript_key img "imageTimestamp" = ok t /\
                   subscript_key img "imageUrl" = ok u /\
                   e = JList [t; u])
              imgs entries.
Proof.
  induction imgs as [|img imgs IH]; intros bigarr bigarr' w w' Hrun.
  - injection Hrun as _ <-. exists []. split; [now rewrite app_nil_r|constructor].
  - cbn [for_each] in Hrun. unfold bind, append_image, lift in Hrun.
    destruct (subscript_key img "imageTimestamp") as [e|t] eqn:Ht;
      [discriminate|].
    destruct (subscript_key img "imageUrl") as [e|u] eqn:Hu; [discriminate|].
    cbn [rbind ok] in Hrun.
    destruct (IH _ _ _ _ Hrun) as (entries & -> & Hall).
    exists (JList [t; u] :: entries). split.
    + now rewrite <- app_assoc.
    + constructor; [|exact Hall]. now exists t, u.
Qed.

(** X12. [get.py] on a response of image records, the first being [r]:
    it succeeds, prints the first image, [data["images"][0]] as the
    response carries it, and then the array, and leaves [out.json]
    holding the serialized list of all the records, in the order
    received, whatever the file held before. *)
Theorem importer_writes_all_records (resp : string) (data : json)
    (r : ImageRecord) (batch : list ImageRecord) (w : world) :
  json_loads resp = Some data ->
  fetched_batch data = Some (r :: batch) ->
  exists first : json,
    rbind (subscript_key data "images")
          (fun imgs => subscript_index imgs 0) = ok first /\
    image_record first = Some r /\
    get_script (inr resp) w =
    (mkWorld (Some (json_dumps (state_doc (r :: batch))))
             (stdout w ++ [FString "" first;
                           FString "" (JList (map entry (r :: batch)))]),
     ok tt).
Proof.
  intros Hd Hb. unfold get_script, bind, lift, json_load.
  rewrite Hd. unfold ok at 1 2.
  unfold fetched_batch in Hb. destruct data as [| | | | |kvs]; try discriminate.
  unfold subscript_key.
  destruct (dict_get "images" kvs) as [[| | | | imgs |]|]; try discriminate.
  destruct imgs as [|img imgs]; [discriminate|].
  exists img. cbn [rbind ok py_iter].
  rewrite subscript_index_head. split; [reflexivity|]. split.
  - cbn [image_records] in Hb.
    destruct (image_record img) as [r'|]; [|discriminate].
    destruct (image_records imgs); [|discriminate]. now injection Hb as -> _.
  - unfold print. cbn [ok].
    rewrite (for_each_append_image (img :: imgs) (r :: batch) Hb).
    unfold write_out_json, ok. cbn [out_json stdout app].
    now rewrite <- app_assoc.
Qed.


(** X14. A response with no image makes [get.py] raise [IndexError] at its
    first [print]: nothing is printed and [out.json] is not written. *)
Theorem importer_empty_response (resp : string) (data : json) (w : world) :
  json_loads resp = Some data ->
  subscript_key data "images" = ok (JList []) ->
  get_script (inr resp) w = (w, raise IndexError).
Proof.
  intros Hd Himgs. unfold get_script, bind, lift, json_load.
  rewrite Hd. unfold ok. now rewrite Himgs.
Qed.

(** X15. When [get.py] succeeds, the response held a non-empty list of
    images and the document written has exactly one entry
    [[imageTimestamp, imageUrl]] for each of them, in the order
    received, with the values as the response carries them. *)
Theorem importer_entries (resp : string) (data : json) (w w' : world) :
  json_loads resp = Some data ->
  get_script (inr resp) w = (w', ok tt) ->
  exists imgs bigarr : list json,
    subscript_key data "images" = ok (JList imgs) /\
    imgs <> [] /\
    out_json w' = Some (json_dumps (JObj [("list", JList bigarr)])) /\
    Forall2 (fun img e =>
               exists t u : json,
                 subscript_key img "imageTimestamp" = ok t /\
                 subscript_key img "imageUrl" = ok u /\
                 e = JList [t; u])
            imgs bigarr.
Proof.
  intros Hd. unfold get_script, bind, lift, json_load.
  rewrite Hd. unfold ok at 1.
  destruct (subscript_key data "images") as [e|v]; [discriminate|].
  cbn [rbind].
  destruct (subscript_index v 0) as [e|first] eqn:Hfirst; [discriminate|].
  unfold print. cbn [ok].
  destruct v as [| | | s | imgs |kvs]; try discriminate.
  - (* a string: its characters have no keys *)
    cbn [py_iter ok]. destruct s as [|c s]; [discriminate|].
    cbn [list_ascii_of_string map for_each]. unfold bind, append_image, lift.
    discriminate.
  - cbn [py_iter ok].
    destruct (for_each imgs append_image [] _) as [w1 [e|bigarr]] eqn:Hloop;
      [discriminate|].
    unfold write_out_json, ok. intros [= <-].
    destruct (for_each_append_entries imgs _ _ _ _ Hloop)
      as (entries & -> & Hall).
    exists imgs, entries. repeat split; [|exact Hall].
    intros ->. discriminate.
Qed.

End ImporterMore.

(* ------------------------------------------------------------------ *)
(** ** The further properties at work on the reference runtime *)

Section RunsMore.
Import Reference Fixtures Cases.


Lemma update_keeps_other_keys_run :
  exists olddata' : json,
    out_json (fst (@update runtime (inr resp_102_101)
                           (world_of file_extra_keys))) =
      Some (dumps olddata') /\
    (forall k : string,
       k <> "list" ->
       subscript_key olddata' k = subscript_key (parsed file_extra_keys) k) /\
    (subscript_key olddata' "list" =
       subscript_key (parsed file_extra_keys) "list" \/
     exists l0 new : list json,
       subscript_key (parsed file_extra_keys) "list" = ok (JList l0) /\
       subscript_key olddata' "list" = ok (JList (new ++ l0))).
Proof.
  exact (@update_keeps_other_keys runtime 2 resp_102_101 file_extra_keys
           (parsed resp_102_101) (parsed file_extra_keys)
           (world_of file_extra_keys)
           (fst (@update runtime (inr resp_102_101)
                         (world_of file_extra_keys)))
           eq_refl eq_refl eq_refl eq_refl eq_refl).
Defined.

Lemma short_batch_raises_run :
  @update runtime (inr resp_one_image) (world_of file_100) =
  (world_of file_100, raise IndexError).
Proof.
  apply (@short_batch_raises runtime 2 resp_one_image file_100
           (parsed resp_one_image) (parsed file_100)
           [JObj [("imageTimestamp", JInt 102); ("imageUrl", JStr "url102")]]
           (world_of file_100)); reflexivity.
Defined.

Lemma insertion_stores_fetched_values_run :
  @loop_body runtime (parsed resp_strings) 0 (parsed file_strings)
             (world_of file_strings) =
  (mkWorld (Some (text "{'list': [['102', 'url102'], ['100', 'url100']]}"))
           [FString "inserted new tiem " (JStr "102")],
   ok (JObj [("list", JList [JList [JStr "102"; JStr "url102"];
                             JList [JStr "100"; JStr "url100"]])])).
Proof.
  apply (@insertion_stores_fetched_values runtime (parsed resp_strings) 0
           [("list", JList [JList [JStr "100"; JStr "url100"]])]
           (JList [JStr "100"; JStr "url100"]) []
           (JObj [("imageTimestamp", JStr "102"); ("imageUrl", JStr "url102")])
           (JStr "102") (JStr "url102") (JStr "100") 100 102
           (world_of file_strings)); reflexivity.
Defined.

Lemma head_is_newest_seen_run :
  exists (h' : ImageRecord) (tl' : ImageList),
    out_json (fst (@update runtime (inr resp_150_100) (world_of file_100))) =
      Some (dumps (state_doc (h' :: tl'))) /\
    timestamp (100, "url100") <= timestamp h' /\
    Forall (fun r => timestamp r <= timestamp h') [(150, "x"); (100, "y")].
Proof.
  exact (@head_is_newest_seen runtime 2 resp_150_100 file_100
           (parsed resp_150_100) [(150, "x"); (100, "y")]
           (100, "url100") [] (world_of file_100)
           (fst (@update runtime (inr resp_150_100) (world_of file_100)))
           eq_refl eq_refl eq_refl eq_refl eq_refl eq_refl).
Defined.

Lemma one_notification_per_insertion_run :
  exists (lines : list line) (l' : ImageList),
    stdout (fst (@update runtime (inr resp_150_100) (world_of file_100))) =
      [] ++ lines /\
    out_json (fst (@update runtime (inr resp_150_100) (world_of file_100))) =
      Some (dumps (state_doc l')) /\
    (List.length lines + 1 = List.length l')%nat.
Proof.
  exact (@one_notification_per_insertion runtime 2 resp_150_100 file_100
           (parsed resp_150_100) [(150, "x"); (100, "y")]
           [(100, "url100")] (world_of file_100)
           (fst (@update runtime (inr resp_150_100) (world_of file_100)))
           eq_refl eq_refl eq_refl eq_refl eq_refl eq_refl).
Defined.

Lemma update_outcomes_run :
  snd (@update runtime (inr resp_105_105) (world_of file_100)) = ok tt /\
  out_json (fst (@update runtime (inr resp_105_105) (world_of file_100))) =
  Some (dumps (state_doc [(105, "b"); (100, "url100")])).
Proof.
  exact (@update_outcomes runtime resp_105_105 file_100 (parsed resp_105_105)
           (105, "a") (105, "b") [] (100, "url100") [] (world_of file_100)
           eq_refl eq_refl eq_refl eq_refl).
Defined.

Lemma later_images_ignored_run :
  @update runtime (inr resp_102_101) (world_of file_100) =
  @update runtime (inr resp_three) (world_of file_100).
Proof.
  exact (@later_images_ignored runtime 2 resp_102_101 resp_three file_100
           (parsed resp_102_101) (parsed resp_three)
           [(102, "url102"); (101, "url101")]
           [(102, "url102"); (101, "url101"); (500, "url500")]
           [(100, "url100")] (world_of file_100)
           eq_refl eq_refl eq_refl eq_refl eq_refl eq_refl eq_refl eq_refl).
Defined.

Lemma import_then_update_is_noop_run :
  snd (@get_script runtime (inr resp_102_101) no_file) = ok tt /\
  @update runtime (inr resp_102_101)
          (fst (@get_script runtime (inr resp_102_101) no_file)) =
  (fst (@get_script runtime (inr resp_102_101) no_file), ok tt).
Proof.
  apply (@import_then_update_is_noop runtime 2 resp_102_101
           (parsed resp_102_101) (102, "url102") [(101, "url101")] no_file);
    try reflexivity.
  - split; [reflexivity|discriminate].
  - repeat constructor; discriminate.
Defined.

Lemma importer_writes_all_records_run :
  @get_script runtime (inr resp_three) (world_of file_100) =
  (mkWorld
     (Some (text ("{'list': [[102, 'url102'], [101, 'url101'], " ++
                  "[500, 'url500']]}")%string))
     [FString "" (JObj [("imageTimestamp", JInt 102);
                        ("imageUrl", JStr "url102")]);
      FString "" (JList [JList [JInt 102; JStr "url102"];
                         JList [JInt 101; JStr "url101"];
                         JList [JInt 500; JStr "url500"]])],
   ok tt).
Proof.
  destruct (@importer_writes_all_records runtime resp_three
              (parsed resp_three) (102, "url102")
              [(101, "url101"); (500, "url500")] (world_of file_100)
              eq_refl eq_refl) as (first & Hfirst & _ & Hrun).
  injection Hfirst as <-. exact Hrun.
Defined.

Lemma importer_empty_response_run :
  @get_script runtime (inr resp_no_images) (world_of file_100) =
  (world_of file_100, raise IndexError).
Proof.
  exact (@importer_empty_response runtime resp_no_images
           (parsed resp_no_images) (world_of file_100) eq_refl eq_refl).
Defined.

Lemma importer_entries_run :
  exists imgs bigarr : list json,
    subscript_key (parsed resp_strings) "images" = ok (JList imgs) /\
    imgs <> [] /\
    out_json (fst (@get_script runtime (inr resp_strings) no_file)) =
      Some (dumps (JObj [("list", JList bigarr)])) /\
    Forall2 (fun img e =>
               exists t u : json,
                 subscript_key img "imageTimestamp" = ok t /\
                 subscript_key img "imageUrl" = ok u /\
                 e = JList [t; u])
            imgs bigarr.
Proof.
  exact (@importer_entries runtime resp_strings (parsed resp_strings) no_file
           (fst (@get_script runtime (inr resp_strings) no_file))
           eq_refl eq_refl).
Defined.


Lemma run_succeeds_iff_run :
  (snd (@update runtime (inr resp_one_image) (world_of file_100)) = ok tt <->
   [(100, "url100")] <> [] /\ 2 <= Z.of_nat 1) /\
  (snd (@update runtime (inr resp_one_image) (world_of file_100)) <> ok tt ->
   @update runtime (inr resp_one_image) (world_of file_100) =
   (world_of file_100, raise IndexError)).
Proof.
  exact (@run_succeeds_iff runtime 2 resp_one_image file_100
           (parsed resp_one_image) [(102, "url102")] [(100, "url100")]
           (world_of file_100) eq_refl eq_refl eq_refl eq_refl eq_refl).
Defined.

End RunsMore.
